(** * The MCP dispatch core of the info-agent server

    A shallow embedding of [MCPServer] from [server_v2.py]: the tool registry
    filled by the [tool] decorator and the JSON-RPC router
    [_handle_mcp_request], followed by the properties of the protocol that
    the specification states about them. *)

From Stdlib Require Import String Ascii List ZArith Lia Bool.
From Stdlib Require Import Floats.PrimFloat Numbers.DecimalString.
Import ListNotations.

Local Open Scope string_scope.
Local Open Scope Z_scope.

(** ** Python values

    The values that travel through the dispatcher are the ones [json.loads]
    produces and [json.dumps] consumes.  A [str] is kept as the bytes of its
    UTF-8 encoding; a [dict] keeps its keys in insertion order. *)

#[local] Set Warnings "-register-all".

Inductive pyval : Type :=
| PNone
| PBool (b : bool)
| PInt (z : Z)
| PFloat (f : float)
| PStr (s : string)
| PList (l : list pyval)
| PDict (d : list (string * pyval)).

(** ** Insertion-ordered dictionaries with [str] keys *)

Definition dict (V : Type) : Type := list (string * V).

Fixpoint dict_get {V} (d : dict V) (key : string) : option V :=
  match d with
  | [] => None
  | (k, v) :: rest => if String.eqb k key then Some v else dict_get rest key
  end.

Definition dict_mem {V} (key : string) (d : dict V) : bool :=
  match dict_get d key with Some _ => true | None => false end.

(** [d[key] = v]: an existing key keeps its place and takes the new value,
    a new key goes to the end. *)
Fixpoint dict_set {V} (d : dict V) (key : string) (v : V) : dict V :=
  match d with
  | [] => [(key, v)]
  | (k, w) :: rest =>
      if String.eqb k key then (k, v) :: rest
      else (k, w) :: dict_set rest key v
  end.

Definition dict_keys {V} (d : dict V) : list string := map fst d.
Definition dict_values {V} (d : dict V) : list V := map snd d.

(** [d.get(key, default)] *)
Definition get_default {V} (d : dict V) (key : string) (default : V) : V :=
  match dict_get d key with Some v => v | None => default end.

(** ** Exceptions

    The exceptions that occur, each with the text [str(e)] gives (for a
    [KeyError], the [repr] of the key): those of the runtime, [Failure] for
    whatever [Exception] the function of a handler raised, and
    [HTTPException], by which the framework aborts a request with a status of
    its own. *)
Inductive exn : Type :=
| AttributeError (message : string)
| TypeError (message : string)
| KeyError (key : string)
| ValueError (message : string)
| RecursionError (message : string)
| Failure (message : string)
| HTTPException (code : Z) (name : string).

(** ** Built-ins of the Python runtime *)

(** [bool(v)], as tested by [if not data]. *)
Definition truthy (v : pyval) : bool :=
  match v with
  | PNone => false
  | PBool b => b
  | PInt z => negb (z =? 0)
  | PFloat f => negb (PrimFloat.eqb f 0%float)
  | PStr s => negb (String.eqb s "")
  | PList l => match l with [] => false | _ => true end
  | PDict d => match d with [] => false | _ => true end
  end.

(** [v == s] for a [str] literal [s]: only an equal [str] compares equal. *)
Definition eq_str (v : pyval) (s : string) : bool :=
  match v with
  | PStr s' => String.eqb s' s
  | _ => false
  end.

(** Lists and dicts cannot be hashed, so they cannot be looked up in a dict. *)
Definition hashable (v : pyval) : bool :=
  match v with
  | PList _ | PDict _ => false
  | _ => true
  end.

Definition int_str (z : Z) : string := NilZero.string_of_int (Z.to_int z).

(** What the interpreter at hand settles is taken as given.  Two texts: the
    shortest round-tripping decimal [float.__repr__] prints, and the quoted
    form [repr] gives a [str] (its choice of escapes follows the Unicode
    database).  Two limits, each with the text of the exception raised past
    it: the number of digits an [int] may have to be printed
    ([sys.get_int_max_str_digits()], 0 for no limit; past it a [ValueError]),
    and the number of containers inside one another that [json.dumps] can
    enter from where the dispatcher calls it (past it a [RecursionError]). *)
Class PyRuntime : Type := {
  float_repr : float -> string;
  str_repr : string -> string;
  int_max_str_digits : nat;
  int_limit_message : string;
  recursion_room : nat;
  recursion_message : string
}.

Section Texts.

Context {RT : PyRuntime}.

Fixpoint py_repr (v : pyval) : string :=
  match v with
  | PNone => "None"
  | PBool true => "True"
  | PBool false => "False"
  | PInt z => int_str z
  | PFloat f => float_repr f
  | PStr s => str_repr s
  | PList l => "[" ++ String.concat ", " (map py_repr l) ++ "]"
  | PDict d =>
      "{" ++ String.concat ", "
               (map (fun kv => match kv with
                               | (k, x) => str_repr k ++ ": " ++ py_repr x
                               end) d) ++ "}"
  end.

(** [str(v)], which is what an f-string field [{v}] prints. *)
Definition py_str (v : pyval) : string :=
  match v with
  | PStr s => s
  | _ => py_repr v
  end.

(** *** [json.dumps(obj, ensure_ascii=False, default=str)] *)

Definition hex_digit (n : N) : ascii :=
  (if n <? 10 then ascii_of_N (48 + n) else ascii_of_N (87 + n))%N.

Definition quote : ascii := "034"%char.
Definition backslash : ascii := "092"%char.

Definition escape_char (c : ascii) : string :=
  let n := N_of_ascii c in
  if (n =? 34)%N then String backslash (String quote "")
  else if (n =? 92)%N then String backslash (String backslash "")
  else if (n =? 8)%N then String backslash "b"
  else if (n =? 12)%N then String backslash "f"
  else if (n =? 10)%N then String backslash "n"
  else if (n =? 13)%N then String backslash "r"
  else if (n =? 9)%N then String backslash "t"
  else if (n <? 32)%N then
    String backslash
      ("u00" ++ String (hex_digit (n / 16)) (String (hex_digit (n mod 16)) ""))
  else String c "".

Fixpoint escape (s : string) : string :=
  match s with
  | EmptyString => ""
  | String c rest => escape_char c ++ escape rest
  end.

Definition encode_str (s : string) : string :=
  String quote (escape s ++ String quote "").

Definition encode_float (f : float) : string :=
  match PrimFloat.classify f with
  | FloatClass.NaN => "NaN"
  | FloatClass.PInf => "Infinity"
  | FloatClass.NInf => "-Infinity"
  | _ => float_repr f
  end.

Fixpoint dumps (v : pyval) : string :=
  match v with
  | PNone => "null"
  | PBool true => "true"
  | PBool false => "false"
  | PInt z => int_str z
  | PFloat f => encode_float f
  | PStr s => encode_str s
  | PList l => "[" ++ String.concat ", " (map dumps l) ++ "]"
  | PDict d =>
      "{" ++ String.concat ", "
               (map (fun kv => match kv with
                               | (k, x) => encode_str k ++ ": " ++ dumps x
                               end) d) ++ "}"
  end.

(** When [json.dumps] raises instead: the first thing met, in the order the
    text is written, that cannot be written.  An [int] with more digits than
    the limit cannot be printed; a container cannot be entered once [room]
    containers around it have been. *)
Definition digits (z : Z) : nat := String.length (int_str (Z.abs z)).

Definition over_limit (z : Z) : bool :=
  match int_max_str_digits with
  | O => false
  | limit => Nat.ltb limit (digits z)
  end.

Fixpoint dumps_raises (room : nat) (v : pyval) : option exn :=
  match v with
  | PInt z =>
      if over_limit z then Some (ValueError int_limit_message) else None
  | PList l =>
      match room with
      | O => Some (RecursionError recursion_message)
      | S room' =>
          (fix first (xs : list pyval) : option exn :=
             match xs with
             | [] => None
             | x :: rest =>
                 match dumps_raises room' x with
                 | Some e => Some e
                 | None => first rest
                 end
             end) l
      end
  | PDict d =>
      match room with
      | O => Some (RecursionError recursion_message)
      | S room' =>
          (fix first (kvs : list (string * pyval)) : option exn :=
             match kvs with
             | [] => None
             | (_, x) :: rest =>
                 match dumps_raises room' x with
                 | Some e => Some e
                 | None => first rest
                 end
             end) d
      end
  | _ => None
  end.

End Texts.

(** ** The registry and the server object *)

(** What evaluating [handler( **arguments )] comes to.  The argument is the
    [arguments] value of the request as it is; binding its keys to the
    parameters of the function is part of the call.  Either the binding fails
    (no mapping, a parameter without value, a key that is no parameter): the
    call raises a [TypeError] with the given text and the function is not
    entered.  Or the function is entered, and returns a value or raises an
    [Exception] [e], of which [str(e)] is the message. *)
Inductive call_outcome : Type :=
| Returns (result : pyval)
| Raises (message : string)
| Rejects (message : string).

Definition handler_fn : Type := pyval -> call_outcome.

(** An entry of [self.tools]. *)
Module Tool.

Record t : Type := {
  name : string;
  description : string;
  inputSchema : pyval;
  handler : handler_fn
}.

End Tool.

Record MCPServer : Type := {
  name : string;
  description : string;
  version : string;
  tools : dict Tool.t
}.

(** ** Effects

    A computation runs against the server object and may end in an exception.
    The runtime also keeps the list of the calls that entered the function of
    a handler so far, oldest first: it is how "the handler was (not) called"
    is observed. *)

Definition type_name (v : pyval) : string :=
  match v with
  | PNone => "NoneType"
  | PBool _ => "bool"
  | PInt _ => "int"
  | PFloat _ => "float"
  | PStr _ => "str"
  | PList _ => "list"
  | PDict _ => "dict"
  end.

Inductive outcome (A : Type) : Type :=
| Val (a : A)
| Exc (e : exn).
Arguments Val {A} a.
Arguments Exc {A} e.

Record runtime : Type := {
  self : MCPServer;
  calls : list (string * pyval)
}.

Definition M (A : Type) : Type := runtime -> outcome A * runtime.

Definition ret {A} (a : A) : M A := fun w => (Val a, w).

Definition bind {A B} (m : M A) (k : A -> M B) : M B :=
  fun w =>
    match m w with
    | (Val a, w') => k a w'
    | (Exc e, w') => (Exc e, w')
    end.

Definition raise {A} (e : exn) : M A := fun w => (Exc e, w).

(** [try: body  except Exception as e: handle e] *)
Definition try_except {A} (body : M A) (handle : exn -> M A) : M A :=
  fun w =>
    match body w with
    | (Val a, w') => (Val a, w')
    | (Exc e, w') => handle e w'
    end.

Notation "x <- m ;; k" := (bind m (fun x => k))
  (at level 61, m at next level, right associativity).

Definition get_self : M MCPServer := fun w => (Val (self w), w).

Definition set_tools (d : dict Tool.t) : M unit :=
  fun w =>
    (Val tt,
     {| self := {| name := name (self w);
                   description := description (self w);
                   version := version (self w);
                   tools := d |};
        calls := calls w |}).

(** [o.get(key, default)]: only a dict has the method. *)
Definition py_get (o : pyval) (key : string) (default : pyval) : M pyval :=
  match o with
  | PDict d => ret (get_default d key default)
  | _ =>
      raise (AttributeError
               ("'" ++ type_name o ++ "' object has no attribute 'get'"))
  end.

Definition unhashable {A} (key : pyval) : M A :=
  raise (TypeError ("unhashable type: '" ++ type_name key ++ "'")).

(** [str(e)]; for an [HTTPException] the status and its name, which its
    description would follow. *)
Definition exn_str (e : exn) : string :=
  match e with
  | AttributeError m => m
  | TypeError m => m
  | KeyError k => k
  | ValueError m => m
  | RecursionError m => m
  | Failure m => m
  | HTTPException code name => int_str code ++ " " ++ name
  end.

(** ** The request

    What [request.get_json()] has to work on: an exchange whose Content-Type
    does not announce JSON (one without a body is of this kind), one that
    announces JSON and carries something else (nothing at all, for one), or
    one that announces JSON and carries the text of the value [data]. *)
Inductive http_request : Type :=
| NoJson
| Malformed
| Json (data : pyval).

(** A parsed value stands for the request that carries it. *)
Coercion Json : pyval >-> http_request.

(** [request.get_json()], called as the source calls it, without [silent]:
    it gives the parsed value or aborts the request, with 415 where no JSON
    was announced and with 400 where the text does not parse (the statuses of
    the framework's current releases). *)
Definition get_json (request : http_request) : M pyval :=
  match request with
  | NoJson => raise (HTTPException 415 "Unsupported Media Type")
  | Malformed => raise (HTTPException 400 "Bad Request")
  | Json data => ret data
  end.

Section Lookup.

Context {RT : PyRuntime}.

(** [key not in d] *)
Definition not_in (key : pyval) (d : dict Tool.t) : M bool :=
  match key with
  | PStr s => ret (negb (dict_mem s d))
  | PList _ | PDict _ => unhashable key
  | _ => ret true
  end.

(** [d[key]] *)
Definition getitem (d : dict Tool.t) (key : pyval) : M Tool.t :=
  match key with
  | PStr s =>
      match dict_get d s with
      | Some t => ret t
      | None => raise (KeyError (py_repr key))
      end
  | PList _ | PDict _ => unhashable key
  | _ => raise (KeyError (py_repr key))
  end.

(** [json.dumps(result, ensure_ascii=False, default=str)] *)
Definition json_dumps (result : pyval) : M string :=
  match dumps_raises recursion_room result with
  | Some e => raise e
  | None => ret (dumps result)
  end.

End Lookup.

(** Evaluating [entry["handler"]( **arguments )]; the call is recorded when
    the function is entered. *)
Definition call_handler (entry : Tool.t) (arguments : pyval) : M pyval :=
  fun w =>
    let w' := {| self := self w;
                 calls := calls w ++ [(Tool.name entry, arguments)] |} in
    match Tool.handler entry arguments with
    | Returns result => (Val result, w')
    | Raises message => (Exc (Failure message), w')
    | Rejects message => (Exc (TypeError message), w)
    end.

(** ** [MCPServer] *)

Definition __init__ (name description version : string) : MCPServer :=
  {| name := name; description := description; version := version;
     tools := [] |}.

(** [@self.tool(name, description, parameters)] applied to [func]. *)
Definition tool (name description : string) (parameters : dict pyval)
    (func : handler_fn) : M unit :=
  s <- get_self ;;
  set_tools
    (dict_set (tools s) name
       {| Tool.name := name;
          Tool.description := description;
          Tool.inputSchema :=
            PDict [("type", PStr "object");
                   ("properties", get_default parameters "properties" (PDict []));
                   ("required", get_default parameters "required" (PList []))];
          Tool.handler := func |}).

(** A view's return value: the JSON document and the HTTP status. *)
Record response : Type := {
  json : pyval;
  status : Z
}.

Definition jsonify (v : pyval) : response := {| json := v; status := 200 |}.

(** [return resp, code] *)
Definition with_status (r : response) (code : Z) : response :=
  {| json := json r; status := code |}.

Section Dispatcher.

Context {RT : PyRuntime}.

(** The view behind [POST /mcp]. *)
Definition _handle_mcp_request (request : http_request) : M response :=
  data <- get_json request ;;
  if negb (truthy data) then
    ret (with_status
           (jsonify (PDict [("jsonrpc", PStr "2.0");
                            ("id", PNone);
                            ("error", PDict [("code", PInt (-32700));
                                             ("message", PStr "Parse error")])]))
           400)
  else
    request_id <- py_get data "id" PNone ;;
    method <- py_get data "method" (PStr "") ;;
    params <- py_get data "params" (PDict []) ;;
    if eq_str method "initialize" then
      s <- get_self ;;
      ret (jsonify
             (PDict [("jsonrpc", PStr "2.0");
                     ("id", request_id);
                     ("result",
                      PDict [("protocolVersion", PStr "2024-11-05");
                             ("serverInfo",
                              PDict [("name", PStr (name s));
                                     ("version", PStr (version s))]);
                             ("capabilities",
                              PDict [("tools",
                                      PDict [("listChanged", PBool false)])])])]))
    else if eq_str method "tools/list" then
      s <- get_self ;;
      let tools_list :=
        map (fun t => PDict [("name", PStr (Tool.name t));
                             ("description", PStr (Tool.description t));
                             ("inputSchema", Tool.inputSchema t)])
            (dict_values (tools s)) in
      ret (jsonify
             (PDict [("jsonrpc", PStr "2.0");
                     ("id", request_id);
                     ("result", PDict [("tools", PList tools_list)])]))
    else if eq_str method "tools/call" then
      tool_name <- py_get params "name" PNone ;;
      arguments <- py_get params "arguments" (PDict []) ;;
      s <- get_self ;;
      absent <- not_in tool_name (tools s) ;;
      if absent then
        ret (jsonify
               (PDict [("jsonrpc", PStr "2.0");
                       ("id", request_id);
                       ("error",
                        PDict [("code", PInt (-32601));
                               ("message",
                                PStr ("Tool not found: " ++ py_str tool_name))])]))
      else
        try_except
          (entry <- getitem (tools s) tool_name ;;
           result <- call_handler entry arguments ;;
           text <- json_dumps result ;;
           ret (jsonify
                  (PDict [("jsonrpc", PStr "2.0");
                          ("id", request_id);
                          ("result",
                           PDict [("content",
                                   PList [PDict [("type", PStr "text");
                                                 ("text", PStr text)]])])])))
          (fun e =>
             ret (jsonify
                    (PDict [("jsonrpc", PStr "2.0");
                            ("id", request_id);
                            ("error", PDict [("code", PInt (-32603));
                                             ("message", PStr (exn_str e))])])))
    else
      ret (jsonify
             (PDict [("jsonrpc", PStr "2.0");
                     ("id", request_id);
                     ("error",
                      PDict [("code", PInt (-32601));
                             ("message",
                              PStr ("Method not found: " ++ py_str method))])])).

End Dispatcher.

(** ** Start-up: the decorated functions of the module

    The module body creates the server and applies [@server.tool(...)] to one
    function after the other. *)

Record declaration : Type := {
  decl_name : string;
  decl_description : string;
  decl_parameters : dict pyval;
  decl_func : handler_fn
}.

Fixpoint declare (ds : list declaration) : M unit :=
  match ds with
  | [] => ret tt
  | d :: rest =>
      _ <- tool (decl_name d) (decl_description d) (decl_parameters d)
             (decl_func d) ;;
      declare rest
  end.

(** The runtime once the module body has run. *)
Definition boot (name description version : string) (ds : list declaration)
  : runtime :=
  snd (declare ds {| self := __init__ name description version; calls := [] |}).

(** The six functions [server_v2.py] decorates.  Each binds its keyword
    arguments and hands them to a function of the package [tools], which is
    not among these sources, so what a call comes to is taken as given. *)
Class Handlers : Type := {
  get_weather_forecast : handler_fn;
  get_news : handler_fn;
  search_web : handler_fn;
  convert_currency : handler_fn;
  calculate : handler_fn;
  get_prayer_times : handler_fn
}.

Definition dq : string := String quote "".
Definition bs : string := String backslash "".
Definition quoted (s : string) : string := dq ++ s ++ dq.

Section Server.

Context {H : Handlers}.

Definition get_weather_forecast_description : string :=
  "Prévisions météo pour une ville (température, pluie, vent).

VILLES COURANTES:
Burkina: Ouagadougou, Bobo-Dioulasso, Koudougou, Ouahigouya
France: Paris, Lyon, Marseille

Retourne météo actuelle et prévisions sur plusieurs jours.".

Definition get_weather_forecast_parameters : dict pyval :=
    [("properties", PDict [("city", PDict [("type", PStr "string");
                                           ("description", PStr "Nom de la ville (ex: 'Ouagadougou')")]);
                           ("country", PDict [("type", PStr "string");
                                              ("description", PStr "Pays (défaut: 'Burkina Faso')")]);
                           ("days", PDict [("type", PStr "integer");
                                           ("description", PStr "Nombre de jours de prévision (1-5)")])]);
     ("required", PList [PStr "city"])].

Definition get_news_description : string :=
  ("Recherche les dernières actualités sur un sujet via NewsData.io.

EXEMPLES DE REQUÊTES:
- " ++ dq ++ "Burkina Faso" ++ dq ++ " (actualités du pays)
- " ++ dq ++ "football africain" ++ dq ++ " (sport)
- " ++ dq ++ "CEDEAO" ++ dq ++ " (organisation régionale)

Retourne liste d'articles avec titre, source et résumé.").

Definition get_news_parameters : dict pyval :=
    [("properties", PDict [("query", PDict [("type", PStr "string");
                                            ("description", PStr "Sujet ou mots-clés de recherche")]);
                           ("language", PDict [("type", PStr "string");
                                               ("description", PStr "Code langue (fr, en, es)")]);
                           ("max_results", PDict [("type", PStr "integer");
                                                  ("description", PStr "Nombre d'articles (1-10)")])]);
     ("required", PList [PStr "query"])].

Definition search_web_description : string :=
  ("Recherche web générale via Tavily AI.

À UTILISER EN DERNIER RECOURS quand aucun outil spécialisé ne convient.

EXEMPLES:
- " ++ dq ++ "Qui est Ibrahim Traoré?" ++ dq ++ "
- " ++ dq ++ "Thomas Sankara discours" ++ dq ++ "
- " ++ dq ++ "capitale du Ghana" ++ dq ++ "

Retourne résultats de recherche avec extraits de pages.").

Definition search_web_parameters : dict pyval :=
    [("properties", PDict [("query", PDict [("type", PStr "string");
                                            ("description", PStr "Question ou mots-clés de recherche")]);
                           ("count", PDict [("type", PStr "integer");
                                            ("description", PStr "Nombre de résultats (1-10)")])]);
     ("required", PList [PStr "query"])].

Definition convert_currency_description : string :=
  "Convertit un montant entre devises avec taux en temps réel.

DEVISES COURANTES:
- XOF: Franc CFA (Burkina, Côte d'Ivoire, Sénégal)
- EUR: Euro
- USD: Dollar américain
- GHS: Cedi ghanéen

EXEMPLE: 100000 XOF → EUR".

Definition convert_currency_parameters : dict pyval :=
    [("properties", PDict [("amount", PDict [("type", PStr "number");
                                             ("description", PStr "Montant à convertir (positif)")]);
                           ("from_currency", PDict [("type", PStr "string");
                                                    ("description", PStr "Code devise source (ex: 'XOF')")]);
                           ("to_currency", PDict [("type", PStr "string");
                                                  ("description", PStr "Code devise cible (ex: 'EUR')")])]);
     ("required", PList [PStr "amount"; PStr "from_currency"; PStr "to_currency"])].

Definition calculate_description : string :=
  ("Effectue des calculs mathématiques.

OPÉRATIONS SUPPORTÉES:
- Basiques: +, -, *, /
- Pourcentages: " ++ dq ++ "20% de 500" ++ dq ++ "
- Racines: sqrt(16)
- Puissances: 2**3

EXEMPLES: " ++ dq ++ "2 + 2" ++ dq ++ ", " ++ dq ++ "100 * 0.19" ++ dq ++ ", " ++ dq ++ "sqrt(144)" ++ dq ++ " ").

Definition calculate_parameters : dict pyval :=
    [("properties", PDict [("expression", PDict [("type", PStr "string");
                                                 ("description", PStr "Expression mathématique à calculer")])]);
     ("required", PList [PStr "expression"])].

Definition get_prayer_times_description : string :=
  "Horaires des 5 prières quotidiennes islamiques (Fajr, Dhuhr, Asr, Maghrib, Isha).

VILLES BURKINA SUPPORTÉES:
- Ouagadougou (capitale)
- Bobo-Dioulasso
- Koudougou
- Ouahigouya
- Banfora".

Definition get_prayer_times_parameters : dict pyval :=
    [("properties", PDict [("city", PDict [("type", PStr "string");
                                           ("description", PStr "Ville du Burkina Faso (défaut: Ouagadougou)")]);
                           ("date", PDict [("type", PStr "string");
                                           ("description", PStr "Date spécifique (YYYY-MM-DD) ou aujourd'hui par défaut")])]);
     ("required", PList [])].

Definition declarations : list declaration :=
  [{| decl_name := "get_weather_forecast";
      decl_description := get_weather_forecast_description;
      decl_parameters := get_weather_forecast_parameters;
      decl_func := get_weather_forecast |};
   {| decl_name := "get_news";
      decl_description := get_news_description;
      decl_parameters := get_news_parameters;
      decl_func := get_news |};
   {| decl_name := "search_web";
      decl_description := search_web_description;
      decl_parameters := search_web_parameters;
      decl_func := search_web |};
   {| decl_name := "convert_currency";
      decl_description := convert_currency_description;
      decl_parameters := convert_currency_parameters;
      decl_func := convert_currency |};
   {| decl_name := "calculate";
      decl_description := calculate_description;
      decl_parameters := calculate_parameters;
      decl_func := calculate |};
   {| decl_name := "get_prayer_times";
      decl_description := get_prayer_times_description;
      decl_parameters := get_prayer_times_parameters;
      decl_func := get_prayer_times |}].

Definition server : runtime :=
  boot "info-agent"
       "Agent d'information - Météo, actualités, recherche web, devises, calculatrice"
       "2.0.0" declarations.

End Server.

(** ** Shapes used to state the protocol *)

(** The fields of a request object as the dispatcher reads them. *)
Definition id_of (kvs : dict pyval) : pyval := get_default kvs "id" PNone.
Definition method_of (kvs : dict pyval) : pyval :=
  get_default kvs "method" (PStr "").
Definition params_of (kvs : dict pyval) : pyval :=
  get_default kvs "params" (PDict []).
Definition name_of (pkvs : dict pyval) : pyval := get_default pkvs "name" PNone.
Definition arguments_of (pkvs : dict pyval) : pyval :=
  get_default pkvs "arguments" (PDict []).

(** The two envelopes of JSON-RPC 2.0. *)
Definition result_envelope (id result : pyval) : pyval :=
  PDict [("jsonrpc", PStr "2.0"); ("id", id); ("result", result)].

Definition error_envelope (id : pyval) (code : Z) (message : string) : pyval :=
  PDict [("jsonrpc", PStr "2.0"); ("id", id);
         ("error", PDict [("code", PInt code); ("message", PStr message)])].

Definition parse_error : response :=
  {| json := error_envelope PNone (-32700) "Parse error"; status := 400 |}.

Definition initialize_result (s : MCPServer) : pyval :=
  PDict [("protocolVersion", PStr "2024-11-05");
         ("serverInfo", PDict [("name", PStr (name s));
                               ("version", PStr (version s))]);
         ("capabilities",
          PDict [("tools", PDict [("listChanged", PBool false)])])].

(** What [tools/list] shows of a registry entry. *)
Definition listing (t : Tool.t) : pyval :=
  PDict [("name", PStr (Tool.name t));
         ("description", PStr (Tool.description t));
         ("inputSchema", Tool.inputSchema t)].

(** The single text block a successful [tools/call] answers with. *)
Definition text_content (text : string) : pyval :=
  PDict [("content", PList [PDict [("type", PStr "text");
                                  ("text", PStr text)]])].

(** The entry [tool] stores for a declaration. *)
Definition entry_of (d : declaration) : Tool.t :=
  {| Tool.name := decl_name d;
     Tool.description := decl_description d;
     Tool.inputSchema :=
       PDict [("type", PStr "object");
              ("properties",
               get_default (decl_parameters d) "properties" (PDict []));
              ("required",
               get_default (decl_parameters d) "required" (PList []))];
     Tool.handler := decl_func d |}.

(** The registry a script leaves, starting from [d0]. *)
Definition registry_after (ds : list declaration) (d0 : dict Tool.t)
  : dict Tool.t :=
  fold_left (fun d decl => dict_set d (decl_name decl) (entry_of decl)) ds d0.

(** The names of a start-up script in the order they first occur. *)
Fixpoint first_occurrences (names : list string) : list string :=
  match names with
  | [] => []
  | n :: rest =>
      n :: filter (fun m => negb (String.eqb m n)) (first_occurrences rest)
  end.

(** The last declaration of the script that carries a given name. *)
Fixpoint last_decl (ds : list declaration) (n : string) : option declaration :=
  match ds with
  | [] => None
  | d :: rest =>
      match last_decl rest n with
      | Some d' => Some d'
      | None => if String.eqb (decl_name d) n then Some d else None
      end
  end.

(** ** A runtime and handlers to run examples on

    The texts are exact on what the examples print: the [repr] of [str]
    values of printable ASCII without quotes, and of the floats 0.5 and 4.0.
    The digit limit is the interpreter's default, 4300; the room is 900
    containers, about what a recursion limit of 1000 leaves. *)

Definition plain_runtime : PyRuntime :=
  {| float_repr :=
       fun f => if PrimFloat.eqb f 0.5%float then "0.5"
                else if PrimFloat.eqb f 4%float then "4.0"
                else "nan";
     str_repr := fun s => "'" ++ s ++ "'";
     int_max_str_digits := 4300;
     int_limit_message :=
       "Exceeds the limit (4300 digits) for integer string conversion; use sys.set_int_max_str_digits() to increase the limit";
     recursion_room := 900;
     recursion_message :=
       "maximum recursion depth exceeded while encoding a JSON object" |}.

(** The same with the digit limit at 640, the least the interpreter lets one
    set. *)
Definition tight_runtime : PyRuntime :=
  {| float_repr := float_repr (PyRuntime := plain_runtime);
     str_repr := str_repr (PyRuntime := plain_runtime);
     int_max_str_digits := 640;
     int_limit_message :=
       "Exceeds the limit (640 digits) for integer string conversion; use sys.set_int_max_str_digits() to increase the limit";
     recursion_room := 900;
     recursion_message :=
       "maximum recursion depth exceeded while encoding a JSON object" |}.

(** [def ping( **kwargs ): return {"host": kwargs.get("host", "localhost")}],
    declared with a schema that lists [host] as required.  (Arguments that
    are no mapping make the call raise a [TypeError]; its text is shortened
    here.) *)
Definition ping : handler_fn :=
  fun arguments =>
    match arguments with
    | PDict d => Returns (PDict [("host", get_default d "host" (PStr "localhost"))])
    | _ => Rejects "argument after ** must be a mapping"
    end.

Definition ping_decl : declaration :=
  {| decl_name := "ping";
     decl_description := "Echo the host";
     decl_parameters :=
       [("properties", PDict [("host", PDict [("type", PStr "string")])]);
        ("required", PList [PStr "host"])];
     decl_func := ping |}.

(** [def fail( **kwargs ): raise ValueError("boom")] *)
Definition fail_decl : declaration :=
  {| decl_name := "fail";
     decl_description := "Always raises";
     decl_parameters := [];
     decl_func := fun _ => Raises "boom" |}.

Definition sample : runtime :=
  boot "sample" "two tools" "2.0.0" [ping_decl; fail_decl].

(** [def quote( **kwargs )], which returns a mapping with a value of every
    kind and the [label] it was given. *)
Definition quote_decl : declaration :=
  {| decl_name := "quote";
     decl_description := "A value of every kind";
     decl_parameters := [];
     decl_func :=
       fun arguments =>
         match arguments with
         | PDict d =>
             Returns
               (PDict [("amount", PInt 4); ("change", PInt (-12));
                       ("rate", PFloat 0.5%float);
                       ("ceiling", PFloat infinity);
                       ("floor", PFloat neg_infinity);
                       ("gap", PFloat nan);
                       ("ok", PBool true); ("none", PNone);
                       ("tags", PList [PStr "a"; PList []; PDict []]);
                       ("label", get_default d "label" (PStr ""))])
         | _ => Rejects "argument after ** must be a mapping"
         end |}.

(** [def big( **kwargs ): return 10 ** 640] *)
Definition big_decl : declaration :=
  {| decl_name := "big";
     decl_description := "An integer of 641 digits";
     decl_parameters := [];
     decl_func := fun _ => Returns (PInt (10 ^ 640)) |}.

(** [def strict(expression): return expression], declared with [expression]
    required: the call itself refuses arguments without it. *)
Definition strict_decl : declaration :=
  {| decl_name := "strict";
     decl_description := "One parameter, no default";
     decl_parameters :=
       [("properties", PDict [("expression", PDict [("type", PStr "string")])]);
        ("required", PList [PStr "expression"])];
     decl_func :=
       fun arguments =>
         match arguments with
         | PDict d =>
             match find (fun kv => negb (String.eqb (fst kv) "expression")) d with
             | Some (k, _) =>
                 Rejects ("strict() got an unexpected keyword argument '"
                            ++ k ++ "'")
             | None =>
                 match dict_get d "expression" with
                 | Some v => Returns v
                 | None =>
                     Rejects
                       "strict() missing 1 required positional argument: 'expression'"
                 end
             end
         | _ => Rejects "argument after ** must be a mapping"
         end |}.

Definition desk : runtime :=
  boot "desk" "three more tools" "2.0.0" [quote_decl; big_decl; strict_decl].

(** A string with every character [json.dumps] escapes (quote, backslash,
    backspace, form feed, newline, carriage return, tab, and the control
    characters 1 and 31) and three it leaves alone. *)
Definition awkward : string :=
  String quote
    (String backslash
       (String "008"
          (String "012"
             (String "010"
                (String "013"
                   (String "009"
                      (String "001" (String "031" (String "127" "é"))))))))).

(** Request objects: [{"jsonrpc": "2.0", "id": id, "method": method}], with a
    [params] member for a [tools/call]. *)
Definition request (id : Z) (method : string) : dict pyval :=
  [("jsonrpc", PStr "2.0"); ("id", PInt id); ("method", PStr method)].

Definition call_params (tool_name : string) (arguments : pyval) : dict pyval :=
  [("name", PStr tool_name); ("arguments", arguments)].

Definition call_request (id : Z) (tool_name : string) (arguments : pyval)
  : dict pyval :=
  (request id "tools/call" ++
   [("params", PDict (call_params tool_name arguments))])%list.

(** ** The other routes of [_setup_routes]

    [POST /mcp] hands the body to [_handle_mcp_request]; the three [GET]
    routes read the server object and answer with a plain document. *)

(** [GET /health] *)
Definition health : M response :=
  s <- get_self ;;
  ret (jsonify
         (PDict [("status", PStr "ok");
                 ("server", PStr (name s));
                 ("version", PStr (version s));
                 ("tools_count", PInt (Z.of_nat (length (tools s))))])).

(** [GET /tools] *)
Definition list_tools : M response :=
  s <- get_self ;;
  let tools_list :=
    map (fun t => PDict [("name", PStr (Tool.name t));
                         ("description", PStr (Tool.description t))])
        (dict_values (tools s)) in
  ret (jsonify
         (PDict [("tools", PList tools_list);
                 ("count", PInt (Z.of_nat (length tools_list)))])).

(** [GET /] *)
Definition index : M response :=
  s <- get_self ;;
  ret (jsonify
         (PDict [("name", PStr (name s));
                 ("description", PStr (description s));
                 ("version", PStr (version s));
                 ("endpoints",
                  PDict [("mcp", PStr "/mcp (POST)");
                         ("health", PStr "/health");
                         ("tools", PStr "/tools")]);
                 ("tools_count", PInt (Z.of_nat (length (tools s))))])).

Section Service.

Context {RT : PyRuntime}.

(** [POST /mcp] *)
Definition mcp_endpoint (request : http_request) : M response :=
  _handle_mcp_request request.

(** The status of the response the framework sends for what the view did: the
    one of the response it returned, the one of the [HTTPException] that
    aborted it, 500 for any other exception that left it. *)
Definition http_status (o : outcome response) : Z :=
  match o with
  | Val r => status r
  | Exc (HTTPException code _) => code
  | Exc _ => 500
  end.

(** Bodies posted to [/mcp] one after the other: each is handled in the
    runtime the one before left, whether that one was answered or raised. *)
Fixpoint serve (bodies : list pyval) (w : runtime)
  : list (outcome response) * runtime :=
  match bodies with
  | [] => ([], w)
  | data :: rest =>
      let (o, w') := mcp_endpoint data w in
      let (os, w'') := serve rest w' in
      (o :: os, w'')
  end.

End Service.

(** ** More vocabulary for statements *)

(** The bodies [_handle_mcp_request] returns a response for: a falsy body, or
    an object that, when its method is [tools/call], has an object as
    [params] and a name that can be looked up. *)
Definition answered (data : pyval) : bool :=
  if truthy data then
    match data with
    | PDict kvs =>
        if eq_str (method_of kvs) "tools/call" then
          match params_of kvs with
          | PDict pkvs => hashable (name_of pkvs)
          | _ => false
          end
        else true
    | _ => false
    end
  else true.

(** What [GET /tools] keeps of an entry of [tools/list]. *)
Definition brief (entry : pyval) : pyval :=
  match entry with
  | PDict d =>
      PDict [("name", get_default d "name" PNone);
             ("description", get_default d "description" PNone)]
  | _ => entry
  end.

(** The strings of a list value, and the keys of a dict value. *)
Definition strings_of (v : pyval) : list string :=
  match v with
  | PList l =>
      flat_map (fun x => match x with PStr s => [s] | _ => [] end) l
  | _ => []
  end.

Definition keys_of (v : pyval) : list string :=
  match v with
  | PDict d => dict_keys d
  | _ => []
  end.

(** A declaration whose [required] names are all among its [properties]. *)
Definition required_declared (d : declaration) : bool :=
  forallb (fun r =>
             existsb (String.eqb r)
               (keys_of (get_default (decl_parameters d) "properties"
                           (PDict []))))
          (strings_of (get_default (decl_parameters d) "required" (PList []))).

(** Reading back the body of a JSON string literal: the inverse of [escape]
    on what [escape] writes. *)
Definition hex_value (c : ascii) : N :=
  let n := N_of_ascii c in
  (if n <? 58 then n - 48 else n - 87)%N.

Fixpoint unescape (s : string) : string :=
  match s with
  | EmptyString => ""
  | String c rest =>
      if Ascii.eqb c backslash then
        match rest with
        | String e rest' =>
            if Ascii.eqb e "u" then
              match rest' with
              | String _ (String _ (String h (String l rest''))) =>
                  String (ascii_of_N (16 * hex_value h + hex_value l))
                         (unescape rest'')
              | _ => ""
              end
            else
              String (if Ascii.eqb e "b" then "008"
                      else if Ascii.eqb e "f" then "012"
                      else if Ascii.eqb e "n" then "010"
                      else if Ascii.eqb e "r" then "013"
                      else if Ascii.eqb e "t" then "009"
                      else e)%char
                     (unescape rest')
        | EmptyString => ""
        end
      else String c (unescape rest)
  end.

(** The ways a request object that passed the parse check is dealt with, one
    constructor per path through [_handle_mcp_request]. *)
Section Paths.

Context {RT : PyRuntime}.

(** The envelope a [tools/call] is answered with, read off what the call of
    the handler came to: the text of the returned value when [json.dumps]
    writes it, and the error -32603 with the message of whatever was raised,
    by the binding, by the function or by [json.dumps]. *)
Definition call_answer (id : pyval) (o : call_outcome) : pyval :=
  match o with
  | Returns result =>
      match dumps_raises recursion_room result with
      | None => result_envelope id (text_content (dumps result))
      | Some e => error_envelope id (-32603) (exn_str e)
      end
  | Raises message => error_envelope id (-32603) message
  | Rejects message => error_envelope id (-32603) message
  end.

(** The record such a call leaves: one entry when the function was entered. *)
Definition call_record (entry : Tool.t) (arguments : pyval)
  : list (string * pyval) :=
  match Tool.handler entry arguments with
  | Rejects _ => []
  | _ => [(Tool.name entry, arguments)]
  end.

Inductive path (kvs : dict pyval) (w : runtime)
  : outcome response * runtime -> Prop :=
| path_initialize :
    method_of kvs = PStr "initialize" ->
    path kvs w
      (Val (jsonify (result_envelope (id_of kvs) (initialize_result (self w)))),
       w)
| path_list :
    method_of kvs = PStr "tools/list" ->
    path kvs w
      (Val (jsonify
              (result_envelope (id_of kvs)
                 (PDict [("tools",
                          PList (map listing
                                   (dict_values (tools (self w)))))]))),
       w)
| path_unknown_method :
    method_of kvs <> PStr "initialize" ->
    method_of kvs <> PStr "tools/list" ->
    method_of kvs <> PStr "tools/call" ->
    path kvs w
      (Val (jsonify (error_envelope (id_of kvs) (-32601)
                       ("Method not found: " ++ py_str (method_of kvs)))),
       w)
| path_params_raise :
    method_of kvs = PStr "tools/call" ->
    (forall d, params_of kvs <> PDict d) ->
    path kvs w
      (Exc (AttributeError
              ("'" ++ type_name (params_of kvs)
                   ++ "' object has no attribute 'get'")),
       w)
| path_name_raise (pkvs : dict pyval) :
    method_of kvs = PStr "tools/call" ->
    params_of kvs = PDict pkvs ->
    hashable (name_of pkvs) = false ->
    path kvs w
      (Exc (TypeError
              ("unhashable type: '" ++ type_name (name_of pkvs) ++ "'")),
       w)
| path_unknown_tool (pkvs : dict pyval) :
    method_of kvs = PStr "tools/call" ->
    params_of kvs = PDict pkvs ->
    hashable (name_of pkvs) = true ->
    (forall n, name_of pkvs = PStr n ->
               dict_get (tools (self w)) n = None) ->
    path kvs w
      (Val (jsonify (error_envelope (id_of kvs) (-32601)
                       ("Tool not found: " ++ py_str (name_of pkvs)))),
       w)
| path_returned (pkvs : dict pyval) (n : string) (entry : Tool.t)
    (result : pyval) :
    method_of kvs = PStr "tools/call" ->
    params_of kvs = PDict pkvs ->
    name_of pkvs = PStr n ->
    dict_get (tools (self w)) n = Some entry ->
    Tool.handler entry (arguments_of pkvs) = Returns result ->
    dumps_raises recursion_room result = None ->
    path kvs w
      (Val (jsonify (result_envelope (id_of kvs)
                       (text_content (dumps result)))),
       {| self := self w;
          calls := calls w ++ [(Tool.name entry, arguments_of pkvs)] |})
| path_raised (pkvs : dict pyval) (n : string) (entry : Tool.t)
    (message : string) :
    method_of kvs = PStr "tools/call" ->
    params_of kvs = PDict pkvs ->
    name_of pkvs = PStr n ->
    dict_get (tools (self w)) n = Some entry ->
    Tool.handler entry (arguments_of pkvs) = Raises message ->
    path kvs w
      (Val (jsonify (error_envelope (id_of kvs) (-32603) message)),
       {| self := self w;
          calls := calls w ++ [(Tool.name entry, arguments_of pkvs)] |})
| path_unwritten (pkvs : dict pyval) (n : string) (entry : Tool.t)
    (result : pyval) (e : exn) :
    method_of kvs = PStr "tools/call" ->
    params_of kvs = PDict pkvs ->
    name_of pkvs = PStr n ->
    dict_get (tools (self w)) n = Some entry ->
    Tool.handler entry (arguments_of pkvs) = Returns result ->
    dumps_raises recursion_room result = Some e ->
    path kvs w
      (Val (jsonify (error_envelope (id_of kvs) (-32603) (exn_str e))),
       {| self := self w;
          calls := calls w ++ [(Tool.name entry, arguments_of pkvs)] |})
| path_rejected (pkvs : dict pyval) (n : string) (entry : Tool.t)
    (message : string) :
    method_of kvs = PStr "tools/call" ->
    params_of kvs = PDict pkvs ->
    name_of pkvs = PStr n ->
    dict_get (tools (self w)) n = Some entry ->
    Tool.handler entry (arguments_of pkvs) = Rejects message ->
    path kvs w
      (Val (jsonify (error_envelope (id_of kvs) (-32603) message)), w).

End Paths.

(** * Properties *)

(** ** Dictionaries *)

Section DictFacts.

Context {V : Type}.
Implicit Types (d : dict V) (k : string) (v : V).

Lemma dict_get_set_same d k v : dict_get (dict_set d k v) k = Some v.
Proof.
  induction d as [|[k' w] rest IH]; simpl.
  - now rewrite String.eqb_refl.
  - destruct (String.eqb k' k) eqn:E; simpl; rewrite E; auto.
Qed.

Lemma dict_get_set_other d k k' v :
  k <> k' -> dict_get (dict_set d k v) k' = dict_get d k'.
Proof.
  intros Hne. induction d as [|[k0 w] rest IH]; simpl.
  - apply String.eqb_neq in Hne. now rewrite Hne.
  - destruct (String.eqb k0 k) eqn:E; simpl.
    + apply String.eqb_eq in E. subst k0.
      apply String.eqb_neq in Hne. now rewrite Hne.
    + destruct (String.eqb k0 k'); auto.
Qed.

Lemma dict_mem_set d k k' v :
  dict_mem k' (dict_set d k v) = String.eqb k' k || dict_mem k' d.
Proof.
  unfold dict_mem. destruct (String.eqb k' k) eqn:E; simpl.
  - apply String.eqb_eq in E. subst k'. now rewrite dict_get_set_same.
  - apply String.eqb_neq in E. rewrite dict_get_set_other; auto.
Qed.

(** Assignment to a key that is there leaves the keys and their order as
    they are; assignment to a new key appends it. *)
Lemma dict_keys_set d k v :
  dict_keys (dict_set d k v) =
  if dict_mem k d then dict_keys d else (dict_keys d ++ [k])%list.
Proof.
  unfold dict_mem. induction d as [|[k' w] rest IH]; simpl; auto.
  destruct (String.eqb k' k) eqn:E; simpl; auto.
  rewrite IH. destruct (dict_get rest k); auto.
Qed.

(** In a dict every key stands once, so each pair is what lookup finds. *)
Lemma dict_get_In d k v :
  NoDup (dict_keys d) -> In (k, v) d -> dict_get d k = Some v.
Proof.
  induction d as [|[k' w] rest IH]; simpl; [tauto|].
  intros Hnd [Heq | Hin].
  - inversion Heq; subst. now rewrite String.eqb_refl.
  - inversion Hnd as [|? ? Hnotin Hnd']; subst.
    destruct (String.eqb k' k) eqn:E; auto.
    apply String.eqb_eq in E. subst k'.
    exfalso. apply Hnotin. unfold dict_keys.
    change k with (fst (k, v)). now apply in_map.
Qed.

End DictFacts.

(** ** The names a script registers *)

Lemma filter_neq_In (n : string) (l : list string) :
  ~ In n (filter (fun m => negb (String.eqb m n)) l).
Proof.
  intros Hin. apply filter_In in Hin as [_ Hb].
  now rewrite String.eqb_refl in Hb.
Qed.

Lemma first_occurrences_In (l : list string) (n : string) :
  In n (first_occurrences l) <-> In n l.
Proof.
  induction l as [|m rest IH]; simpl; [tauto|].
  rewrite filter_In, IH. split.
  - intros [?|[? _]]; auto.
  - intros [?|?]; auto.
    destruct (String.eqb n m) eqn:E.
    + apply String.eqb_eq in E. auto.
    + right. split; auto.
Qed.

Lemma first_occurrences_NoDup (l : list string) : NoDup (first_occurrences l).
Proof.
  induction l as [|m rest IH]; simpl; constructor.
  - apply filter_neq_In.
  - now apply NoDup_filter.
Qed.

(** ** Start-up *)

Lemma tool_run (n desc : string) (ps : dict pyval) (f : handler_fn)
    (w : runtime) :
  tool n desc ps f w =
  (Val tt,
   {| self := {| name := name (self w);
                 description := description (self w);
                 version := version (self w);
                 tools :=
                   dict_set (tools (self w)) n
                     (entry_of {| decl_name := n; decl_description := desc;
                                  decl_parameters := ps; decl_func := f |}) |};
      calls := calls w |}).
Proof. reflexivity. Qed.

Lemma declare_run (ds : list declaration) (w : runtime) :
  declare ds w =
  (Val tt,
   {| self := {| name := name (self w);
                 description := description (self w);
                 version := version (self w);
                 tools := registry_after ds (tools (self w)) |};
      calls := calls w |}).
Proof.
  revert w. induction ds as [|d rest IH]; intros w; simpl.
  - destruct w as [[? ? ? ?] ?]; reflexivity.
  - unfold bind. rewrite tool_run. rewrite IH. simpl.
    destruct d; reflexivity.
Qed.

Lemma boot_tools (nm desc ver : string) (ds : list declaration) :
  tools (self (boot nm desc ver ds)) = registry_after ds [].
Proof. unfold boot. rewrite declare_run. reflexivity. Qed.

Lemma last_decl_name (ds : list declaration) (n : string) (d : declaration) :
  last_decl ds n = Some d -> decl_name d = n.
Proof.
  induction ds as [|d0 rest IH]; simpl; [discriminate|].
  destruct (last_decl rest n) as [d'|].
  - intros Heq. apply IH. exact Heq.
  - destruct (String.eqb (decl_name d0) n) eqn:E; [|discriminate].
    intros Heq. inversion Heq; subst. now apply String.eqb_eq.
Qed.

(** Lookup after start-up finds the entry of the last declaration of the
    name. *)
Lemma registry_after_get (ds : list declaration) (d0 : dict Tool.t)
    (n : string) :
  dict_get (registry_after ds d0) n =
  match last_decl ds n with
  | Some d => Some (entry_of d)
  | None => dict_get d0 n
  end.
Proof.
  revert d0. induction ds as [|d rest IH]; intros d0; simpl; auto.
  unfold registry_after in *. simpl. rewrite IH.
  destruct (last_decl rest n); auto.
  destruct (String.eqb (decl_name d) n) eqn:E.
  - apply String.eqb_eq in E. subst n. apply dict_get_set_same.
  - apply String.eqb_neq in E. now apply dict_get_set_other.
Qed.

Lemma filter_filter {A} (f g : A -> bool) (l : list A) :
  filter f (filter g l) = filter (fun x => f x && g x) l.
Proof.
  induction l as [|x rest IH]; simpl; auto.
  destruct (g x); simpl; rewrite ?andb_true_r, ?andb_false_r.
  - destruct (f x); simpl; now rewrite IH.
  - exact IH.
Qed.

(** The keys after start-up: those of [d0], then the new names in the order
    they first occur. *)
Lemma registry_after_keys (ds : list declaration) (d0 : dict Tool.t) :
  dict_keys (registry_after ds d0) =
  (dict_keys d0 ++
   filter (fun n => negb (dict_mem n d0))
          (first_occurrences (map decl_name ds)))%list.
Proof.
  revert d0. induction ds as [|d rest IH]; intros d0; simpl.
  - now rewrite app_nil_r.
  - unfold registry_after in *. simpl. rewrite IH.
    rewrite dict_keys_set, filter_filter.
    destruct (dict_mem (decl_name d) d0) eqn:Hmem; simpl.
    + f_equal. apply filter_ext_in. intros m _.
      rewrite dict_mem_set.
      destruct (String.eqb m (decl_name d)) eqn:E; simpl.
      * apply String.eqb_eq in E. subst m. now rewrite Hmem.
      * now rewrite andb_true_r.
    + rewrite <- app_assoc. simpl. do 2 f_equal.
      apply filter_ext_in. intros m _.
      rewrite dict_mem_set.
      destruct (String.eqb m (decl_name d)) eqn:E; simpl.
      * now rewrite andb_false_r.
      * now rewrite andb_true_r.
Qed.

Lemma boot_keys (nm desc ver : string) (ds : list declaration) :
  dict_keys (tools (self (boot nm desc ver ds))) =
  first_occurrences (map decl_name ds).
Proof.
  rewrite boot_tools, registry_after_keys. simpl.
  induction (first_occurrences (map decl_name ds)) as [|n l IH]; simpl; auto.
  now rewrite IH.
Qed.

(** Each entry of a booted registry is the one [tool] built from the last
    declaration of its key; in particular it carries its key as [name]. *)
Lemma boot_entry (nm desc ver : string) (ds : list declaration)
    (k : string) (e : Tool.t) :
  In (k, e) (tools (self (boot nm desc ver ds))) ->
  exists d, last_decl ds k = Some d /\ e = entry_of d.
Proof.
  intros Hin.
  assert (Hget : dict_get (tools (self (boot nm desc ver ds))) k = Some e).
  { apply dict_get_In; auto. rewrite boot_keys. apply first_occurrences_NoDup. }
  rewrite boot_tools, registry_after_get in Hget.
  destruct (last_decl ds k) as [d|]; [|discriminate].
  exists d. split; congruence.
Qed.

Lemma boot_names (nm desc ver : string) (ds : list declaration) :
  map Tool.name (dict_values (tools (self (boot nm desc ver ds)))) =
  first_occurrences (map decl_name ds).
Proof.
  rewrite <- (boot_keys nm desc ver). unfold dict_values, dict_keys.
  rewrite map_map. apply map_ext_in. intros [k e] Hin.
  apply boot_entry in Hin as [d [Hd ->]]. simpl.
  now apply last_decl_name in Hd.
Qed.

(** ** The dispatcher *)

Section DispatcherFacts.

Context {RT : PyRuntime}.

Lemma request_nonempty (kvs : dict pyval) (m : string) :
  method_of kvs = PStr m -> m <> "" -> truthy (PDict kvs) = true.
Proof.
  destruct kvs as [|kv rest]; simpl; auto.
  unfold method_of, get_default. simpl. congruence.
Qed.

(** A body that is falsy is answered with the parse error. *)
Lemma handle_falsy (data : pyval) (w : runtime) :
  truthy data = false -> _handle_mcp_request data w = (Val parse_error, w).
Proof.
  intros Hf. unfold _handle_mcp_request, get_json, bind, ret.
  rewrite Hf. reflexivity.
Qed.

(** Past the parse check, a request object is routed on its [method]. *)
Lemma handle_object (kvs : dict pyval) (w : runtime) :
  truthy (PDict kvs) = true ->
  _handle_mcp_request (PDict kvs) w =
  (if eq_str (method_of kvs) "initialize" then
     ret (jsonify (result_envelope (id_of kvs) (initialize_result (self w))))
   else if eq_str (method_of kvs) "tools/list" then
     ret (jsonify
            (result_envelope (id_of kvs)
               (PDict [("tools",
                        PList (map listing (dict_values (tools (self w)))))])))
   else if eq_str (method_of kvs) "tools/call" then
     tool_name <- py_get (params_of kvs) "name" PNone ;;
     arguments <- py_get (params_of kvs) "arguments" (PDict []) ;;
     absent <- not_in tool_name (tools (self w)) ;;
     if absent then
       ret (jsonify (error_envelope (id_of kvs) (-32601)
                       ("Tool not found: " ++ py_str tool_name)))
     else
       try_except
         (entry <- getitem (tools (self w)) tool_name ;;
          result <- call_handler entry arguments ;;
          text <- json_dumps result ;;
          ret (jsonify (result_envelope (id_of kvs) (text_content text))))
         (fun e =>
            ret (jsonify (error_envelope (id_of kvs) (-32603) (exn_str e))))
   else
     ret (jsonify (error_envelope (id_of kvs) (-32601)
                     ("Method not found: " ++ py_str (method_of kvs))))) w.
Proof.
  intros Ht. unfold _handle_mcp_request, get_json.
  unfold bind at 1. unfold ret at 1. rewrite Ht. cbn [negb].
  unfold py_get at 1 2 3. unfold bind at 1 2 3. unfold ret at 1 2 3.
  fold (id_of kvs) (method_of kvs) (params_of kvs).
  destruct (eq_str (method_of kvs) "initialize"); [reflexivity|].
  destruct (eq_str (method_of kvs) "tools/list"); [reflexivity|].
  destruct (eq_str (method_of kvs) "tools/call"); [|reflexivity].
  unfold bind, py_get, get_self.
  destruct (params_of kvs); reflexivity.
Qed.

Lemma eq_str_false (v : pyval) (m : string) : v <> PStr m -> eq_str v m = false.
Proof.
  intros Hne. destruct v; simpl; auto.
  destruct (String.eqb s m) eqn:E; auto.
  apply String.eqb_eq in E. congruence.
Qed.

(** Routing of a [tools/call] request whose [params] is an object. *)
Lemma handle_tools_call (kvs pkvs : dict pyval) (w : runtime) :
  method_of kvs = PStr "tools/call" ->
  params_of kvs = PDict pkvs ->
  _handle_mcp_request (PDict kvs) w =
  (absent <- not_in (name_of pkvs) (tools (self w)) ;;
   if absent then
     ret (jsonify (error_envelope (id_of kvs) (-32601)
                     ("Tool not found: " ++ py_str (name_of pkvs))))
   else
     try_except
       (entry <- getitem (tools (self w)) (name_of pkvs) ;;
        result <- call_handler entry (arguments_of pkvs) ;;
        text <- json_dumps result ;;
        ret (jsonify (result_envelope (id_of kvs) (text_content text))))
       (fun e =>
          ret (jsonify (error_envelope (id_of kvs) (-32603) (exn_str e))))) w.
Proof.
  intros Hm Hp. rewrite handle_object.
  - rewrite Hm, Hp. reflexivity.
  - apply (request_nonempty kvs "tools/call"); [assumption | discriminate].
Qed.

(** A call of a registered tool evaluates its handler once, on the arguments
    as they came, and the answer is read off what the call comes to. *)
Lemma tools_call_registered (kvs pkvs : dict pyval) (n : string)
    (entry : Tool.t) (w : runtime) :
  method_of kvs = PStr "tools/call" ->
  params_of kvs = PDict pkvs ->
  name_of pkvs = PStr n ->
  dict_get (tools (self w)) n = Some entry ->
  _handle_mcp_request (PDict kvs) w =
  (Val (jsonify
          (call_answer (id_of kvs)
             (Tool.handler entry (arguments_of pkvs)))),
   {| self := self w;
      calls := calls w ++ call_record entry (arguments_of pkvs) |}).
Proof.
  intros Hm Hp Hn Hget. rewrite (handle_tools_call kvs pkvs); auto.
  rewrite Hn. unfold bind, not_in, getitem, try_except, ret, dict_mem.
  rewrite Hget. cbn [negb]. unfold call_handler, call_record, call_answer.
  destruct (Tool.handler entry (arguments_of pkvs)) as [result|m|m].
  - unfold json_dumps.
    destruct (dumps_raises recursion_room result); reflexivity.
  - reflexivity.
  - rewrite app_nil_r. destruct w; reflexivity.
Qed.

Lemma eq_str_eq (v : pyval) (m : string) : eq_str v m = true -> v = PStr m.
Proof.
  destruct v; simpl; try discriminate.
  intros E. apply String.eqb_eq in E. now subst.
Qed.

Lemma eq_str_neq (v : pyval) (m : string) : eq_str v m = false -> v <> PStr m.
Proof.
  intros E Heq. subst v. simpl in E. now rewrite String.eqb_refl in E.
Qed.

(** The dispatcher follows one of the paths. *)
Lemma handle_path (kvs : dict pyval) (w : runtime) :
  truthy (PDict kvs) = true ->
  path kvs w (_handle_mcp_request (PDict kvs) w).
Proof.
  intros Ht. rewrite handle_object by assumption.
  destruct (eq_str (method_of kvs) "initialize") eqn:Ei.
  { apply path_initialize. now apply eq_str_eq. }
  destruct (eq_str (method_of kvs) "tools/list") eqn:El.
  { apply path_list. now apply eq_str_eq. }
  destruct (eq_str (method_of kvs) "tools/call") eqn:Ec.
  2:{ apply path_unknown_method; now apply eq_str_neq. }
  apply eq_str_eq in Ec.
  destruct (params_of kvs) as [| | | | | |pkvs] eqn:Ep;
    try (unfold bind, py_get; rewrite <- Ep;
         apply path_params_raise; [assumption | rewrite Ep; discriminate]).
  unfold bind, py_get, ret. fold (name_of pkvs) (arguments_of pkvs).
  destruct (name_of pkvs) as [| | | |n| |] eqn:En;
    try (unfold not_in, ret; cbv beta iota; rewrite <- En;
         apply (path_unknown_tool kvs w pkvs); auto;
         [now rewrite En | rewrite En; discriminate]);
    try (unfold not_in, unhashable, raise; cbv beta iota; rewrite <- En;
         apply (path_name_raise kvs w pkvs); auto; now rewrite En).
  unfold not_in, ret, dict_mem.
  destruct (dict_get (tools (self w)) n) as [entry|] eqn:Eg; cbn [negb].
  - unfold try_except, bind, getitem. rewrite Eg. unfold ret, call_handler.
    destruct (Tool.handler entry (arguments_of pkvs)) as [result|m|m] eqn:Eh.
    + unfold json_dumps.
      destruct (dumps_raises recursion_room result) as [e|] eqn:Ed.
      * apply (path_unwritten kvs w pkvs n entry result e); auto.
      * apply (path_returned kvs w pkvs n entry); auto.
    + apply (path_raised kvs w pkvs n entry); auto.
    + apply (path_rejected kvs w pkvs n entry); auto.
  - rewrite <- En. apply (path_unknown_tool kvs w pkvs); auto.
    + now rewrite En.
    + rewrite En. intros n' Hn'. inversion Hn'. now subst.
Qed.

(** A truthy body that is no object has no [get]. *)
Lemma handle_non_object (data : pyval) (w : runtime) :
  truthy data = true ->
  (forall d, data <> PDict d) ->
  _handle_mcp_request data w =
  (Exc (AttributeError
          ("'" ++ type_name data ++ "' object has no attribute 'get'")), w).
Proof.
  intros Ht Hd. unfold _handle_mcp_request, get_json, bind, ret. rewrite Ht.
  destruct data; try reflexivity. now contradiction (Hd d).
Qed.

(** The dispatcher never assigns to the server object. *)
Lemma handle_preserves_self (data : pyval) (w : runtime) :
  self (snd (_handle_mcp_request data w)) = self w.
Proof.
  destruct (truthy data) eqn:Ht; [|now rewrite handle_falsy].
  destruct data as [| | | | | |kvs];
    try (rewrite handle_non_object; [reflexivity | assumption | discriminate]).
  pose proof (handle_path kvs w Ht) as Hp.
  inversion Hp; reflexivity.
Qed.

(** Its answer depends on the server object alone, not on the calls made
    before. *)
Lemma handle_self_only (data : pyval) (w1 w2 : runtime) :
  self w1 = self w2 ->
  fst (_handle_mcp_request data w1) = fst (_handle_mcp_request data w2).
Proof.
  intros Heq.
  destruct (truthy data) eqn:Ht; [|now rewrite !handle_falsy].
  destruct data as [| | | | | |kvs];
    try (rewrite !handle_non_object; [reflexivity | | | |];
         solve [assumption | discriminate]).
  rewrite !handle_object by assumption. rewrite Heq.
  destruct (eq_str (method_of kvs) "initialize"); [reflexivity|].
  destruct (eq_str (method_of kvs) "tools/list"); [reflexivity|].
  destruct (eq_str (method_of kvs) "tools/call"); [|reflexivity].
  unfold bind, py_get. destruct (params_of kvs); try reflexivity.
  unfold ret, not_in.
  destruct (get_default d "name" PNone) as [| | | |n| |]; try reflexivity.
  destruct (negb (dict_mem n (tools (self w2)))); [reflexivity|].
  unfold try_except, getitem, call_handler.
  destruct (dict_get (tools (self w2)) n) as [entry|]; [|reflexivity].
  simpl. destruct (Tool.handler entry _) as [result|m|m]; try reflexivity.
  unfold json_dumps, raise, ret.
  destruct (dumps_raises recursion_room result); reflexivity.
Qed.

(** Whatever the dispatcher returns for a body that passed the parse check
    goes out with status 200. *)
Lemma handle_returned_200 (data : pyval) (w w' : runtime) (r : response) :
  truthy data = true ->
  _handle_mcp_request data w = (Val r, w') -> status r = 200.
Proof.
  intros Ht Hrun.
  destruct data as [| | | | | |kvs];
    try (rewrite handle_non_object in Hrun;
         [discriminate | assumption | discriminate]).
  pose proof (handle_path kvs w Ht) as Hp. rewrite Hrun in Hp.
  inversion Hp; reflexivity.
Qed.

End DispatcherFacts.

(** ** The protocol *)

Section Protocol.

Context {RT : PyRuntime}.

(** C1. A [tools/call] request that names a registered tool whose handler
    returns a value, one [json.dumps] writes, is answered, with status 200,
    by a result whose [content] is an array of exactly one entry, of type
    [text], whose text is the [json.dumps] serialization of the returned
    value. *)
Theorem tools_call_success (kvs pkvs : dict pyval) (n : string)
    (entry : Tool.t) (result : pyval) (w : runtime) :
  method_of kvs = PStr "tools/call" ->
  params_of kvs = PDict pkvs ->
  name_of pkvs = PStr n ->
  dict_get (tools (self w)) n = Some entry ->
  Tool.handler entry (arguments_of pkvs) = Returns result ->
  dumps_raises recursion_room result = None ->
  _handle_mcp_request (PDict kvs) w =
  (Val {| json :=
            result_envelope (id_of kvs)
              (PDict [("content",
                       PList [PDict [("type", PStr "text");
                                     ("text", PStr (dumps result))]])]);
          status := 200 |},
   {| self := self w;
      calls := calls w ++ [(Tool.name entry, arguments_of pkvs)] |}).
Proof.
  intros Hm Hp Hn Hget Hcall Hwritten.
  rewrite (tools_call_registered kvs pkvs n entry); auto.
  unfold call_record, call_answer. rewrite Hcall, Hwritten. reflexivity.
Qed.

(** C2. A [tools/call] request whose [params.name] is not a key of the
    registry is answered, whatever [arguments] it carries, by the error
    envelope with code -32601 and message "Tool not found: " followed by the
    name; no handler is called (the runtime is left as it was). *)
Theorem tools_call_unknown_tool (kvs pkvs : dict pyval) (w : runtime) :
  method_of kvs = PStr "tools/call" ->
  params_of kvs = PDict pkvs ->
  hashable (name_of pkvs) = true ->
  (forall n, name_of pkvs = PStr n -> dict_mem n (tools (self w)) = false) ->
  _handle_mcp_request (PDict kvs) w =
  (Val {| json := error_envelope (id_of kvs) (-32601)
                    ("Tool not found: " ++ py_str (name_of pkvs));
          status := 200 |},
   w).
Proof.
  intros Hm Hp Hh Habs. rewrite (handle_tools_call kvs pkvs); auto.
  unfold bind, not_in, ret.
  destruct (name_of pkvs) as [| | | |n| |] eqn:E;
    try discriminate; try reflexivity.
  rewrite (Habs n eq_refl). reflexivity.
Qed.

(** C3, as the code has it.  The dispatcher does not read
    [inputSchema.required]: a call of a registered tool evaluates
    [handler( **arguments )] on the arguments as supplied, whichever keys they
    omit, and always answers with status 200.  When the function returns a
    value that [json.dumps] writes, the answer is the success result with
    that text; when the call raises (binding the arguments, in which case the
    function is not entered, or inside the function) or [json.dumps] raises,
    it is the error -32603 with the message of the exception. *)
Theorem tools_call_ignores_required (kvs pkvs : dict pyval) (n : string)
    (entry : Tool.t) (w : runtime) :
  method_of kvs = PStr "tools/call" ->
  params_of kvs = PDict pkvs ->
  name_of pkvs = PStr n ->
  dict_get (tools (self w)) n = Some entry ->
  exists (r : response) (w' : runtime),
    _handle_mcp_request (PDict kvs) w = (Val r, w') /\
    status r = 200 /\
    self w' = self w /\
    match Tool.handler entry (arguments_of pkvs) with
    | Returns result =>
        calls w' = (calls w ++ [(Tool.name entry, arguments_of pkvs)])%list /\
        match dumps_raises recursion_room result with
        | None =>
            json r =
            result_envelope (id_of kvs) (text_content (dumps result))
        | Some e =>
            json r = error_envelope (id_of kvs) (-32603) (exn_str e)
        end
    | Raises message =>
        calls w' = (calls w ++ [(Tool.name entry, arguments_of pkvs)])%list /\
        json r = error_envelope (id_of kvs) (-32603) message
    | Rejects message =>
        calls w' = calls w /\
        json r = error_envelope (id_of kvs) (-32603) message
    end.
Proof.
  intros Hm Hp Hn Hget.
  rewrite (tools_call_registered kvs pkvs n entry); auto.
  do 2 eexists. split; [reflexivity|]. split; [reflexivity|].
  split; [reflexivity|]. unfold call_record, call_answer. simpl.
  destruct (Tool.handler entry (arguments_of pkvs)) as [result|m|m].
  - split; [reflexivity|].
    destruct (dumps_raises recursion_room result); reflexivity.
  - split; reflexivity.
  - split; [apply app_nil_r | reflexivity].
Qed.

(** C8. A [tools/call] request that names a registered tool whose handler
    raises is answered by the error envelope with code -32603 and the raised
    message, verbatim; the response is returned (nothing propagates), the
    server object is unchanged, and every later request is answered as if the
    failed one had not been made. *)
Theorem tools_call_failure (kvs pkvs : dict pyval) (n : string)
    (entry : Tool.t) (message : string) (w : runtime) :
  method_of kvs = PStr "tools/call" ->
  params_of kvs = PDict pkvs ->
  name_of pkvs = PStr n ->
  dict_get (tools (self w)) n = Some entry ->
  Tool.handler entry (arguments_of pkvs) = Raises message ->
  exists w' : runtime,
    _handle_mcp_request (PDict kvs) w =
    (Val {| json := error_envelope (id_of kvs) (-32603) message;
            status := 200 |},
     w') /\
    self w' = self w /\
    (forall later : pyval,
        fst (_handle_mcp_request later w') =
        fst (_handle_mcp_request later w)).
Proof.
  intros Hm Hp Hn Hget Hcall.
  rewrite (tools_call_registered kvs pkvs n entry); auto.
  unfold call_record, call_answer. rewrite Hcall.
  eexists. split; [reflexivity|]. split; [reflexivity|].
  intros later. now apply handle_self_only.
Qed.

(** C4, at the inputs where the code departs from it.  A request that
    announces no JSON, or whose body does not parse, never reaches the parse
    check: [get_json] aborts it, with 415 or 400, and no envelope is
    returned.  The envelope with code -32700 is returned only for a body that
    did parse, to a falsy value.  And the parse error is not the only status
    other than 200: a body that parses to a truthy value that is no object
    makes the view raise, which goes out with status 500. *)
Theorem bad_body_never_parse_error (w : runtime) :
  _handle_mcp_request NoJson w =
  (Exc (HTTPException 415 "Unsupported Media Type"), w) /\
  _handle_mcp_request Malformed w = (Exc (HTTPException 400 "Bad Request"), w) /\
  (forall (request : http_request) (r : response) (w' : runtime),
      _handle_mcp_request request w = (Val r, w') ->
      json r = error_envelope PNone (-32700) "Parse error" ->
      exists data : pyval, request = Json data /\ truthy data = false) /\
  (forall data : pyval,
      truthy data = true ->
      (forall d, data <> PDict d) ->
      http_status (fst (_handle_mcp_request data w)) = 500).
Proof.
  split; [reflexivity|]. split; [reflexivity|]. split.
  - intros [| |data] r w' Hrun Hjson; try discriminate.
    exists data. split; [reflexivity|].
    destruct (truthy data) eqn:Ht; [exfalso | reflexivity].
    destruct data as [| | | | | |kvs];
      try (rewrite handle_non_object in Hrun;
           [discriminate | assumption | discriminate]).
    pose proof (handle_path kvs w Ht) as Hp. rewrite Hrun in Hp.
    inversion Hp; subst; simpl in Hjson; discriminate.
  - intros data Ht Hd. now rewrite handle_non_object.
Qed.

(** C5. A request object whose method is none of [initialize], [tools/list]
    and [tools/call] is answered by the error envelope with code -32601 and
    message "Method not found: " followed by the method, under the id of the
    request. *)
Theorem unknown_method (kvs : dict pyval) (w : runtime) :
  kvs <> [] ->
  method_of kvs <> PStr "initialize" ->
  method_of kvs <> PStr "tools/list" ->
  method_of kvs <> PStr "tools/call" ->
  _handle_mcp_request (PDict kvs) w =
  (Val {| json := error_envelope (id_of kvs) (-32601)
                    ("Method not found: " ++ py_str (method_of kvs));
          status := 200 |},
   w).
Proof.
  intros Hne Hi Hl Hc. rewrite handle_object.
  - now rewrite !eq_str_false.
  - destruct kvs; [contradiction | reflexivity].
Qed.

(** C6. Every [initialize] request is answered by the same fixed result
    object: the protocol version, the name and version of the server, and the
    capabilities with [listChanged] false.  A second [initialize], run in the
    runtime the first one left, carries that very object again, and the
    runtime is never changed. *)
Theorem initialize_fixed (kvs kvs' : dict pyval) (w : runtime) :
  method_of kvs = PStr "initialize" ->
  method_of kvs' = PStr "initialize" ->
  exists result : pyval,
    result =
    PDict [("protocolVersion", PStr "2024-11-05");
           ("serverInfo", PDict [("name", PStr (name (self w)));
                                 ("version", PStr (version (self w)))]);
           ("capabilities",
            PDict [("tools", PDict [("listChanged", PBool false)])])] /\
    _handle_mcp_request (PDict kvs) w =
    (Val {| json := result_envelope (id_of kvs) result; status := 200 |}, w) /\
    _handle_mcp_request (PDict kvs')
      (snd (_handle_mcp_request (PDict kvs) w)) =
    (Val {| json := result_envelope (id_of kvs') result; status := 200 |}, w).
Proof.
  intros Hm Hm'.
  assert (Hrun : forall k, method_of k = PStr "initialize" ->
            _handle_mcp_request (PDict k) w =
            (Val (jsonify (result_envelope (id_of k)
                             (initialize_result (self w)))), w)).
  { intros k Hk. rewrite handle_object.
    - now rewrite Hk.
    - apply (request_nonempty k "initialize"); [assumption | discriminate]. }
  eexists. split; [reflexivity|].
  rewrite (Hrun kvs Hm). simpl. rewrite (Hrun kvs' Hm'). split; reflexivity.
Qed.

(** C7. [tools/list] answers with the listing (name, description,
    inputSchema) of each entry of the registry, in the order of the registry,
    and leaves the runtime as it was, so that a repeated call gives the same
    answer.  In the registry a start-up script leaves, the entries are one
    per declared name, in the order the names were first declared, each the
    entry of the last declaration of its name. *)
Theorem tools_list_registered (kvs : dict pyval) (w : runtime) :
  method_of kvs = PStr "tools/list" ->
  _handle_mcp_request (PDict kvs) w =
  (Val {| json :=
            result_envelope (id_of kvs)
              (PDict [("tools",
                       PList (map listing (dict_values (tools (self w)))))]);
          status := 200 |},
   w) /\
  _handle_mcp_request (PDict kvs) (snd (_handle_mcp_request (PDict kvs) w)) =
  _handle_mcp_request (PDict kvs) w /\
  (forall (nm desc ver : string) (ds : list declaration),
      w = boot nm desc ver ds ->
      map Tool.name (dict_values (tools (self w))) =
      first_occurrences (map decl_name ds) /\
      NoDup (map Tool.name (dict_values (tools (self w)))) /\
      (forall n, In n (map Tool.name (dict_values (tools (self w)))) <->
                 In n (map decl_name ds)) /\
      (forall e, In e (dict_values (tools (self w))) ->
                 exists d, last_decl ds (Tool.name e) = Some d /\
                           e = entry_of d)).
Proof.
  intros Hm.
  assert (Hrun : _handle_mcp_request (PDict kvs) w =
            (Val (jsonify
                    (result_envelope (id_of kvs)
                       (PDict [("tools",
                                PList (map listing
                                         (dict_values (tools (self w)))))]))),
             w)).
  { rewrite handle_object.
    - now rewrite Hm.
    - apply (request_nonempty kvs "tools/list"); [assumption | discriminate]. }
  split; [exact Hrun|]. split; [now rewrite Hrun|].
  intros nm desc ver ds ->. rewrite boot_names.
  split; [reflexivity|]. split; [apply first_occurrences_NoDup|].
  split; [apply first_occurrences_In|].
  intros e Hin. unfold dict_values in Hin.
  apply in_map_iff in Hin as [[k e'] [Heq Hin]]. simpl in Heq. subst e'.
  destruct (boot_entry _ _ _ _ _ _ Hin) as [d [Hd He]].
  exists d. split; [|assumption].
  rewrite He. simpl. now rewrite (last_decl_name _ _ _ Hd).
Qed.


End Protocol.

(** C9, as the code has it.  [tool] never fails.  For a name the registry
    already holds it puts the new definition in the place of the old one: the
    names and their order stay, the name now maps to the new entry, every
    other name maps to what it did, and nothing else of the runtime moves. *)
Theorem tool_replaces_duplicate (n desc : string) (ps : dict pyval)
    (f : handler_fn) (w : runtime) :
  dict_mem n (tools (self w)) = true ->
  exists w' : runtime,
    tool n desc ps f w = (Val tt, w') /\
    dict_keys (tools (self w')) = dict_keys (tools (self w)) /\
    dict_get (tools (self w')) n =
    Some (entry_of {| decl_name := n; decl_description := desc;
                      decl_parameters := ps; decl_func := f |}) /\
    (forall k, k <> n ->
               dict_get (tools (self w')) k = dict_get (tools (self w)) k) /\
    name (self w') = name (self w) /\
    description (self w') = description (self w) /\
    version (self w') = version (self w) /\
    calls w' = calls w.
Proof.
  intros Hmem. rewrite tool_run. eexists. split; [reflexivity|]. simpl.
  split; [now rewrite dict_keys_set, Hmem|].
  split; [apply dict_get_set_same|].
  split; [|repeat split].
  intros k Hk. apply dict_get_set_other. congruence.
Qed.

(** ** The protocol at work *)

(** *** Serialization *)

Example dumps_object :
  dumps (RT := plain_runtime)
    (PDict [("result", PInt 4); ("ok", PBool true); ("note", PNone)]) =
  "{" ++ dq ++ "result" ++ dq ++ ": 4, " ++ dq ++ "ok" ++ dq ++ ": true, "
      ++ dq ++ "note" ++ dq ++ ": null}".
Proof. reflexivity. Qed.

Example dumps_array :
  dumps (RT := plain_runtime) (PList [PInt (-1); PStr "météo"; PList []; PDict []]) =
  "[-1, " ++ dq ++ "météo" ++ dq ++ ", [], {}]".
Proof. reflexivity. Qed.

(** What [json.dumps] cannot write: an integer past the digit limit, and a
    container deeper than there is room for; the first one met decides. *)
Example dumps_raises_digits :
  dumps_raises (RT := tight_runtime) 900 (PList [PInt 7; PInt (- 10 ^ 640)]) =
  Some (ValueError
          "Exceeds the limit (640 digits) for integer string conversion; use sys.set_int_max_str_digits() to increase the limit") /\
  dumps_raises (RT := tight_runtime) 900 (PInt (10 ^ 640 - 1)) = None /\
  dumps_raises (RT := plain_runtime) 900 (PInt (10 ^ 640)) = None.
Proof. repeat split; vm_compute; reflexivity. Qed.

Example dumps_raises_depth :
  dumps_raises (RT := tight_runtime) 2
    (PDict [("a", PList [PInt 1; PList []; PInt (10 ^ 640)])]) =
  Some (RecursionError
          "maximum recursion depth exceeded while encoding a JSON object") /\
  dumps_raises (RT := tight_runtime) 2 (PDict [("a", PList [PInt 1])]) = None.
Proof. split; vm_compute; reflexivity. Qed.

(** Quotes, backslashes and control characters are escaped. *)
Example dumps_escapes :
  dumps (RT := plain_runtime)
    (PStr (String quote (String backslash (String "010" (String "001" "é"))))) =
  dq ++ String backslash dq ++ String backslash (String backslash "")
     ++ String backslash "n" ++ String backslash "u0001" ++ "é" ++ dq.
Proof. reflexivity. Qed.

(** *** The server of the module *)

Section Scenarios.

Context {RT : PyRuntime} {H : Handlers}.

(** The six tools, in the order the module declares them. *)
Example server_tool_names :
  map Tool.name (dict_values (tools (self server))) =
  ["get_weather_forecast"; "get_news"; "search_web"; "convert_currency";
   "calculate"; "get_prayer_times"].
Proof. reflexivity. Qed.

Example server_tools_list :
  exists listed : list pyval,
    _handle_mcp_request (PDict (request 1 "tools/list")) server =
    (Val {| json := result_envelope (PInt 1) (PDict [("tools", PList listed)]);
            status := 200 |},
     server) /\
    length listed = 6%nat.
Proof. eexists. split; reflexivity. Qed.

Example server_unknown_tool :
  _handle_mcp_request (PDict (call_request 3 "unknown_tool" (PDict []))) server =
  (Val {| json :=
            error_envelope (PInt 3) (-32601) "Tool not found: unknown_tool";
          status := 200 |},
   server).
Proof. reflexivity. Qed.

Example server_unknown_method :
  _handle_mcp_request (PDict (request 4 "frobnicate")) server =
  (Val {| json :=
            error_envelope (PInt 4) (-32601) "Method not found: frobnicate";
          status := 200 |},
   server).
Proof. reflexivity. Qed.

(** A call of [calculate] goes to the decorated function, with the arguments
    of the request. *)
Example server_calls_calculate (arguments : pyval) :
  _handle_mcp_request (PDict (call_request 2 "calculate" arguments)) server =
  (Val (jsonify (call_answer (PInt 2) (calculate arguments))),
   {| self := self server;
      calls := match calculate arguments with
               | Rejects _ => []
               | _ => [("calculate", arguments)]
               end |}).
Proof.
  rewrite (tools_call_registered
             (call_request 2 "calculate" arguments)
             (call_params "calculate" arguments) "calculate"
             (entry_of {| decl_name := "calculate";
                          decl_description := calculate_description;
                          decl_parameters := calculate_parameters;
                          decl_func := calculate |}));
    reflexivity.
Qed.

Example server_absent_body :
  _handle_mcp_request PNone server =
  (Val {| json := error_envelope PNone (-32700) "Parse error";
          status := 400 |},
   server).
Proof. reflexivity. Qed.

(** The schema [calculate] is listed with. *)
Example server_calculate_schema :
  option_map Tool.inputSchema (dict_get (tools (self server)) "calculate") =
  Some (PDict [("type", PStr "object");
               ("properties",
                PDict [("expression",
                        PDict [("type", PStr "string");
                               ("description",
                                PStr "Expression mathématique à calculer")])]);
               ("required", PList [PStr "expression"])]).
Proof. reflexivity. Qed.

(** *** Requests the dispatcher does not answer

    Three shapes of body pass the parse check and then make the dispatcher
    raise; nothing in [_handle_mcp_request] catches these. *)

Lemma non_object_body_raises (data : pyval) (w : runtime) :
  truthy data = true ->
  (forall d, data <> PDict d) ->
  _handle_mcp_request data w =
  (Exc (AttributeError
          ("'" ++ type_name data ++ "' object has no attribute 'get'")), w).
Proof.
  intros Ht Hd. now apply handle_non_object.
Qed.

Lemma non_object_params_raises (kvs : dict pyval) (w : runtime) :
  method_of kvs = PStr "tools/call" ->
  (forall d, params_of kvs <> PDict d) ->
  _handle_mcp_request (PDict kvs) w =
  (Exc (AttributeError
          ("'" ++ type_name (params_of kvs)
               ++ "' object has no attribute 'get'")), w).
Proof.
  intros Hm Hd. rewrite handle_object.
  - rewrite Hm. simpl. unfold bind, py_get.
    destruct (params_of kvs); try reflexivity. now contradiction (Hd d).
  - apply (request_nonempty kvs "tools/call"); [assumption | discriminate].
Qed.

(** A handler that returns what [json.dumps] cannot write: the call is made
    and the answer is the error -32603 with the text of the [ValueError]. *)
Example unwritten_result_is_error :
  _handle_mcp_request (RT := tight_runtime)
    (PDict (call_request 6 "big" (PDict []))) desk =
  (Val {| json :=
            error_envelope (PInt 6) (-32603)
              "Exceeds the limit (640 digits) for integer string conversion; use sys.set_int_max_str_digits() to increase the limit";
          status := 200 |},
   {| self := self desk; calls := [("big", PDict [])] |}).
Proof. vm_compute. reflexivity. Qed.

Lemma unhashable_name_raises (kvs pkvs : dict pyval) (w : runtime) :
  method_of kvs = PStr "tools/call" ->
  params_of kvs = PDict pkvs ->
  hashable (name_of pkvs) = false ->
  _handle_mcp_request (PDict kvs) w =
  (Exc (TypeError
          ("unhashable type: '" ++ type_name (name_of pkvs) ++ "'")), w).
Proof.
  intros Hm Hp Hh. rewrite (handle_tools_call kvs pkvs); auto.
  unfold bind, not_in. destruct (name_of pkvs); try discriminate; reflexivity.
Qed.

End Scenarios.

(** *** The theorems at concrete requests *)

(** [quote] called with a label that holds every character that is escaped:
    the text spelled out, with its integers, floats and escapes. *)
Lemma tools_call_success_witness :
  _handle_mcp_request (RT := plain_runtime)
    (PDict (call_request 2 "quote" (PDict [("label", PStr awkward)]))) desk =
  (Val {| json :=
            result_envelope (PInt 2)
              (PDict [("content",
                       PList [PDict [("type", PStr "text");
                                     ("text",
                                      PStr ("{" ++ quoted "amount" ++ ": 4, "
                                         ++ quoted "change" ++ ": -12, "
                                         ++ quoted "rate" ++ ": 0.5, "
                                         ++ quoted "ceiling" ++ ": Infinity, "
                                         ++ quoted "floor" ++ ": -Infinity, "
                                         ++ quoted "gap" ++ ": NaN, "
                                         ++ quoted "ok" ++ ": true, "
                                         ++ quoted "none" ++ ": null, "
                                         ++ quoted "tags" ++ ": ["
                                         ++ quoted "a" ++ ", [], {}], "
                                         ++ quoted "label" ++ ": "
                                         ++ dq ++ bs ++ dq ++ bs ++ bs
                                         ++ bs ++ "b" ++ bs ++ "f"
                                         ++ bs ++ "n" ++ bs ++ "r"
                                         ++ bs ++ "t" ++ bs ++ "u0001"
                                         ++ bs ++ "u001f"
                                         ++ String "127" "é" ++ dq
                                         ++ "}"))]])]);
          status := 200 |},
   {| self := self desk;
      calls := [("quote", PDict [("label", PStr awkward)])] |}).
Proof.
  exact (tools_call_success (RT := plain_runtime)
           (call_request 2 "quote" (PDict [("label", PStr awkward)]))
           (call_params "quote" (PDict [("label", PStr awkward)]))
           "quote" (entry_of quote_decl)
           (PDict [("amount", PInt 4); ("change", PInt (-12));
                   ("rate", PFloat 0.5%float);
                   ("ceiling", PFloat infinity);
                   ("floor", PFloat neg_infinity);
                   ("gap", PFloat nan);
                   ("ok", PBool true); ("none", PNone);
                   ("tags", PList [PStr "a"; PList []; PDict []]);
                   ("label", PStr awkward)])
           desk eq_refl eq_refl eq_refl eq_refl eq_refl eq_refl).
Defined.

(** A name the registry does not hold. *)
Lemma tools_call_unknown_tool_witness :
  _handle_mcp_request (RT := plain_runtime)
    (PDict (call_request 3 "unknown_tool" (PDict []))) sample =
  (Val {| json :=
            error_envelope (PInt 3) (-32601) "Tool not found: unknown_tool";
          status := 200 |},
   sample).
Proof.
  apply (tools_call_unknown_tool (RT := plain_runtime)
           (call_request 3 "unknown_tool" (PDict []))
           (call_params "unknown_tool" (PDict [])) sample);
    try reflexivity.
  intros n Hn. inversion Hn. reflexivity.
Defined.

(** [ping] is declared with [host] required and called without it: the
    handler is called all the same and its value is the answer. *)
Lemma required_key_omitted_handler_called :
  option_map Tool.inputSchema (dict_get (tools (self sample)) "ping") =
  Some (PDict [("type", PStr "object");
               ("properties", PDict [("host", PDict [("type", PStr "string")])]);
               ("required", PList [PStr "host"])]) /\
  arguments_of (call_params "ping" (PDict [])) = PDict [] /\
  _handle_mcp_request (RT := plain_runtime)
    (PDict (call_request 5 "ping" (PDict []))) sample =
  (Val {| json :=
            result_envelope (PInt 5)
              (text_content ("{" ++ dq ++ "host" ++ dq ++ ": "
                                 ++ dq ++ "localhost" ++ dq ++ "}"));
          status := 200 |},
   {| self := self sample; calls := [("ping", PDict [])] |}).
Proof. repeat split. Qed.

(** Two tools declared with a required parameter and called without it:
    [ping] is entered, and its value is the answer; [strict] has no default
    for it, so the call itself raises and that is the answer. *)
Lemma tools_call_ignores_required_witness :
  (exists (r : response) (w' : runtime),
      _handle_mcp_request (RT := plain_runtime)
        (PDict (call_request 5 "ping" (PDict []))) sample = (Val r, w') /\
      status r = 200 /\
      self w' = self sample /\
      calls w' = [("ping", PDict [])] /\
      json r =
      result_envelope (PInt 5)
        (text_content ("{" ++ quoted "host" ++ ": " ++ quoted "localhost"
                           ++ "}"))) /\
  (exists (r : response) (w' : runtime),
      _handle_mcp_request (RT := plain_runtime)
        (PDict (call_request 5 "strict" (PDict []))) desk = (Val r, w') /\
      status r = 200 /\
      self w' = self desk /\
      calls w' = [] /\
      json r =
      error_envelope (PInt 5) (-32603)
        "strict() missing 1 required positional argument: 'expression'").
Proof.
  split.
  - exact (tools_call_ignores_required (RT := plain_runtime)
             (call_request 5 "ping" (PDict []))
             (call_params "ping" (PDict []))
             "ping" (entry_of ping_decl) sample
             eq_refl eq_refl eq_refl eq_refl).
  - exact (tools_call_ignores_required (RT := plain_runtime)
             (call_request 5 "strict" (PDict []))
             (call_params "strict" (PDict []))
             "strict" (entry_of strict_decl) desk
             eq_refl eq_refl eq_refl eq_refl).
Defined.


(** A method the router does not know. *)
Lemma unknown_method_witness :
  _handle_mcp_request (RT := plain_runtime)
    (PDict (request 4 "frobnicate")) sample =
  (Val {| json :=
            error_envelope (PInt 4) (-32601) "Method not found: frobnicate";
          status := 200 |},
   sample).
Proof.
  apply (unknown_method (RT := plain_runtime) (request 4 "frobnicate") sample);
    discriminate.
Defined.

(** Two [initialize] requests with different ids. *)
Lemma initialize_fixed_witness :
  exists result : pyval,
    result =
    PDict [("protocolVersion", PStr "2024-11-05");
           ("serverInfo", PDict [("name", PStr "sample");
                                 ("version", PStr "2.0.0")]);
           ("capabilities",
            PDict [("tools", PDict [("listChanged", PBool false)])])] /\
    _handle_mcp_request (RT := plain_runtime)
      (PDict (request 1 "initialize")) sample =
    (Val {| json := result_envelope (PInt 1) result; status := 200 |},
     sample) /\
    _handle_mcp_request (RT := plain_runtime) (PDict (request 2 "initialize"))
      (snd (_handle_mcp_request (RT := plain_runtime)
              (PDict (request 1 "initialize")) sample)) =
    (Val {| json := result_envelope (PInt 2) result; status := 200 |},
     sample).
Proof.
  exact (initialize_fixed (RT := plain_runtime)
           (request 1 "initialize") (request 2 "initialize") sample
           eq_refl eq_refl).
Defined.

(** The listing of the two sample tools. *)
Lemma tools_list_registered_witness :
  _handle_mcp_request (RT := plain_runtime)
    (PDict (request 1 "tools/list")) sample =
  (Val {| json :=
            result_envelope (PInt 1)
              (PDict [("tools",
                       PList [listing (entry_of ping_decl);
                              listing (entry_of fail_decl)])]);
          status := 200 |},
   sample) /\
  map Tool.name (dict_values (tools (self sample))) = ["ping"; "fail"].
Proof.
  pose proof (tools_list_registered (RT := plain_runtime)
                (request 1 "tools/list") sample eq_refl) as [Hrun [_ Hboot]].
  split; [exact Hrun|].
  exact (proj1 (Hboot "sample" "two tools" "2.0.0" [ping_decl; fail_decl]
                  eq_refl)).
Defined.

(** A handler that raises. *)
Lemma tools_call_failure_witness :
  exists w' : runtime,
    _handle_mcp_request (RT := plain_runtime)
      (PDict (call_request 6 "fail" (PDict []))) sample =
    (Val {| json := error_envelope (PInt 6) (-32603) "boom"; status := 200 |},
     w') /\
    self w' = self sample.
Proof.
  destruct (tools_call_failure (RT := plain_runtime)
              (call_request 6 "fail" (PDict []))
              (call_params "fail" (PDict []))
              "fail" (entry_of fail_decl) "boom" sample
              eq_refl eq_refl eq_refl eq_refl eq_refl)
    as [w' [Hrun [Hself _]]].
  exists w'. split; [exact Hrun | exact Hself].
Defined.

(** Declaring [ping] a second time does not fail and changes the registry:
    the entry under [ping] is the new one. *)
Lemma duplicate_name_is_replaced :
  dict_mem "ping" (tools (self sample)) = true /\
  exists w' : runtime,
    tool "ping" "Changed" [] (fun _ => Returns PNone) sample = (Val tt, w') /\
    tools (self w') <> tools (self sample) /\
    option_map Tool.description (dict_get (tools (self sample)) "ping") =
    Some "Echo the host" /\
    option_map Tool.description (dict_get (tools (self w')) "ping") =
    Some "Changed".
Proof.
  split; [reflexivity|]. eexists. split; [reflexivity|].
  split; [|split; reflexivity].
  intros Heq.
  apply (f_equal (fun d => option_map Tool.description (dict_get d "ping")))
    in Heq.
  discriminate Heq.
Qed.

Lemma tool_replaces_duplicate_witness :
  exists w' : runtime,
    tool "ping" "Changed" [] (fun _ => Returns PNone) sample = (Val tt, w') /\
    dict_keys (tools (self w')) = ["ping"; "fail"] /\
    option_map Tool.description (dict_get (tools (self w')) "ping") =
    Some "Changed".
Proof.
  destruct (tool_replaces_duplicate "ping" "Changed" []
              (fun _ => Returns PNone) sample eq_refl)
    as [w' [Hrun [Hkeys [Hget _]]]].
  exists w'. split; [exact Hrun|]. split; [exact Hkeys|].
  rewrite Hget. reflexivity.
Defined.

(** * Further properties of the server *)

(** ** What the dispatcher answers, and when it does not *)

Section Answers.

Context {RT : PyRuntime}.

(** X1. Whatever response the dispatcher returns is a JSON-RPC 2.0 envelope
    with exactly three members: the version, an id (the one of the request,
    null for a body that failed the parse check) and either a result or an
    error made of a code and a message; the code is -32700, -32601 or
    -32603. *)
Theorem response_is_envelope (data : pyval) (w w' : runtime) (r : response) :
  _handle_mcp_request data w = (Val r, w') ->
  exists member : string * pyval,
    json r =
    PDict [("jsonrpc", PStr "2.0");
           ("id", match data with
                  | PDict kvs => if truthy data then id_of kvs else PNone
                  | _ => PNone
                  end);
           member] /\
    ((exists v, member = ("result", v)) \/
     (exists code message,
         member = ("error", PDict [("code", PInt code);
                                   ("message", PStr message)]) /\
         (code = -32700 \/ code = -32601 \/ code = -32603))).
Proof.
  intros Hrun. destruct (truthy data) eqn:Ht.
  - destruct data as [| | | | | |kvs];
      try (rewrite handle_non_object in Hrun;
           [discriminate | assumption | discriminate]).
    pose proof (handle_path kvs w Ht) as Hp. rewrite Hrun in Hp.
    inversion Hp; subst; eexists; (split; [reflexivity|]);
      solve [ left; eexists; reflexivity
            | right; do 2 eexists; split; [reflexivity | tauto] ].
  - rewrite handle_falsy in Hrun by assumption. inversion Hrun; subst.
    eexists. split.
    + destruct data; reflexivity.
    + right. do 2 eexists. split; [reflexivity | tauto].
Qed.

(** X2. The dispatcher returns a response exactly for the bodies [answered]
    accepts.  For the others (a truthy body that is no object, a [tools/call]
    whose [params] is no object or whose name is a list or a dict) an
    [AttributeError] or a [TypeError] leaves it, with no handler called.  No
    failure of a handler and no failed lookup ever leaves it. *)
Theorem answered_or_raises (data : pyval) (w : runtime) :
  if answered data then
    exists (r : response) (w' : runtime),
      _handle_mcp_request data w = (Val r, w')
  else
    exists message : string,
      _handle_mcp_request data w = (Exc (AttributeError message), w) \/
      _handle_mcp_request data w = (Exc (TypeError message), w).
Proof.
  unfold answered. destruct (truthy data) eqn:Ht.
  2:{ rewrite handle_falsy by assumption. eauto. }
  destruct data as [| | | | | |kvs];
    try (rewrite handle_non_object;
         [eexists; left; reflexivity | assumption | discriminate]).
  pose proof (handle_path kvs w Ht) as Hp.
  inversion Hp;
    repeat match goal with
           | H : method_of kvs = _ |- _ => rewrite H
           | H : params_of kvs = _ |- _ => rewrite H
           | H : name_of _ = _ |- _ => rewrite H
           | H : hashable _ = _ |- _ => rewrite H
           | H : method_of kvs <> PStr "tools/call" |- _ =>
               rewrite (eq_str_false _ _ H)
           end; simpl; eauto.
  match goal with
  | H : forall d, params_of kvs <> PDict d |- _ =>
      destruct (params_of kvs) as [| | | | | |d]; eauto;
      now contradiction (H d)
  end.
Qed.

(** X3. One request makes at most one handler call: either none, or the call
    of the entry registered under the requested name, on the [arguments] of
    the request, added after the calls made before. *)
Theorem at_most_one_call (data : pyval) (w : runtime) :
  calls (snd (_handle_mcp_request data w)) = calls w \/
  exists (kvs pkvs : dict pyval) (n : string) (entry : Tool.t),
    data = PDict kvs /\
    method_of kvs = PStr "tools/call" /\
    params_of kvs = PDict pkvs /\
    name_of pkvs = PStr n /\
    dict_get (tools (self w)) n = Some entry /\
    calls (snd (_handle_mcp_request data w)) =
    (calls w ++ [(Tool.name entry, arguments_of pkvs)])%list.
Proof.
  destruct (truthy data) eqn:Ht.
  2:{ left. now rewrite handle_falsy. }
  destruct data as [| | | | | |kvs];
    try (left; rewrite handle_non_object;
         [reflexivity | assumption | discriminate]).
  pose proof (handle_path kvs w Ht) as Hp.
  inversion Hp; try (left; reflexivity);
    right; exists kvs, pkvs, n, entry; repeat split; auto.
Qed.

(** X4. Of a request object the dispatcher reads [id] and [method], and
    [params] when the method is [tools/call]; two non-empty objects that
    agree on these are dealt with alike, whatever else they hold (the
    [jsonrpc] member is never looked at). *)
Theorem only_id_method_params_read (kvs kvs' : dict pyval) (w : runtime) :
  kvs <> [] ->
  kvs' <> [] ->
  id_of kvs = id_of kvs' ->
  method_of kvs = method_of kvs' ->
  (method_of kvs = PStr "tools/call" -> params_of kvs = params_of kvs') ->
  _handle_mcp_request (PDict kvs) w = _handle_mcp_request (PDict kvs') w.
Proof.
  intros Hne Hne' Hid Hm Hp.
  rewrite !handle_object by (destruct kvs, kvs'; simpl; congruence).
  rewrite <- Hid, <- Hm.
  destruct (eq_str (method_of kvs) "initialize"); [reflexivity|].
  destruct (eq_str (method_of kvs) "tools/list"); [reflexivity|].
  destruct (eq_str (method_of kvs) "tools/call") eqn:Ec; [|reflexivity].
  now rewrite <- (Hp (eq_str_eq _ _ Ec)).
Qed.

(** X5. Requests are independent of one another: in a run of bodies posted
    one after the other, each gets the outcome it would get as the first, and
    the server object at the end is the one at the start. *)
Theorem serve_stateless (bodies : list pyval) (w : runtime) :
  fst (serve bodies w) =
  map (fun data : pyval => fst (_handle_mcp_request data w)) bodies /\
  self (snd (serve bodies w)) = self w.
Proof.
  revert w. induction bodies as [|data rest IH]; intros w; simpl; auto.
  unfold mcp_endpoint.
  pose proof (handle_preserves_self data w) as Hself.
  destruct (_handle_mcp_request data w) as [o w1] eqn:E1. simpl in Hself.
  destruct (IH w1) as [IHo IHs].
  destruct (serve rest w1) as [os w2]. simpl in *. split.
  - f_equal. rewrite IHo. apply map_ext. intros d.
    now apply handle_self_only.
  - congruence.
Qed.

End Answers.

(** ** The registry *)

Lemma dict_set_new {V} (d : dict V) (k : string) (v : V) :
  dict_mem k d = false -> dict_set d k v = (d ++ [(k, v)])%list.
Proof.
  unfold dict_mem. induction d as [|[k' x] rest IH]; simpl; auto.
  destruct (String.eqb k' k); [discriminate|].
  intros Hm. now rewrite IH.
Qed.

Lemma registry_after_distinct (ds : list declaration) (d0 : dict Tool.t) :
  NoDup (map decl_name ds) ->
  (forall n, In n (map decl_name ds) -> dict_mem n d0 = false) ->
  registry_after ds d0 =
  (d0 ++ map (fun d => (decl_name d, entry_of d)) ds)%list.
Proof.
  revert d0. induction ds as [|d rest IH]; intros d0 Hnd Hfresh; simpl.
  - now rewrite app_nil_r.
  - inversion Hnd as [|? ? Hnotin Hnd']; subst.
    unfold registry_after in *. simpl.
    rewrite IH; auto.
    + rewrite dict_set_new by (apply Hfresh; now left).
      now rewrite <- app_assoc.
    + intros n Hin. rewrite dict_mem_set.
      destruct (String.eqb n (decl_name d)) eqn:E; simpl.
      * apply String.eqb_eq in E. subst n. contradiction.
      * apply Hfresh. now right.
Qed.

Lemma boot_self (nm desc ver : string) (ds : list declaration) :
  name (self (boot nm desc ver ds)) = nm /\
  description (self (boot nm desc ver ds)) = desc /\
  version (self (boot nm desc ver ds)) = ver /\
  calls (boot nm desc ver ds) = [].
Proof. unfold boot. rewrite declare_run. repeat split. Qed.

(** X6. [tool] with a name the registry does not hold appends the new entry:
    the names are the old ones followed by the new one, the new name maps to
    the new entry and every other name to what it did. *)
Theorem tool_appends_new_name (n desc : string) (ps : dict pyval)
    (f : handler_fn) (w : runtime) :
  dict_mem n (tools (self w)) = false ->
  exists w' : runtime,
    tool n desc ps f w = (Val tt, w') /\
    tools (self w') =
    (tools (self w) ++
     [(n, entry_of {| decl_name := n; decl_description := desc;
                      decl_parameters := ps; decl_func := f |})])%list /\
    dict_get (tools (self w')) n =
    Some (entry_of {| decl_name := n; decl_description := desc;
                      decl_parameters := ps; decl_func := f |}) /\
    (forall k, k <> n ->
               dict_get (tools (self w')) k = dict_get (tools (self w)) k).
Proof.
  intros Hmem. rewrite tool_run. eexists. split; [reflexivity|]. simpl.
  split; [now apply dict_set_new|].
  split; [apply dict_get_set_same|].
  intros k Hk. apply dict_get_set_other. congruence.
Qed.

(** X7. A script whose names are all different registers every declaration:
    the registry holds, in the order of the script, each name with the entry
    built from its declaration. *)
Theorem distinct_names_all_registered (nm desc ver : string)
    (ds : list declaration) :
  NoDup (map decl_name ds) ->
  tools (self (boot nm desc ver ds)) =
  map (fun d => (decl_name d, entry_of d)) ds.
Proof.
  intros Hnd. rewrite boot_tools.
  now rewrite registry_after_distinct.
Qed.

(** X8. Every entry of a registry left by a start-up script has an object
    schema with the three members [type], [properties] and [required], also
    when the declaration gave no properties or no required list. *)
Theorem registered_schema_shape (nm desc ver : string) (ds : list declaration)
    (e : Tool.t) :
  In e (dict_values (tools (self (boot nm desc ver ds)))) ->
  exists (d : declaration),
    In d ds /\
    Tool.name e = decl_name d /\
    Tool.inputSchema e =
    PDict [("type", PStr "object");
           ("properties",
            match dict_get (decl_parameters d) "properties" with
            | Some p => p
            | None => PDict []
            end);
           ("required",
            match dict_get (decl_parameters d) "required" with
            | Some r => r
            | None => PList []
            end)].
Proof.
  intros Hin. unfold dict_values in Hin.
  apply in_map_iff in Hin as [[k e'] [Heq Hin]]. simpl in Heq. subst e'.
  destruct (boot_entry _ _ _ _ _ _ Hin) as [d [Hd He]].
  exists d. subst e. repeat split.
  clear Hin. induction ds as [|d0 rest IH]; simpl in *; [discriminate|].
  destruct (last_decl rest k); [right; auto|].
  destruct (String.eqb (decl_name d0) k); [|discriminate].
  left. congruence.
Qed.

Section RoundTrip.

Context {RT : PyRuntime}.

(** X9. Once [tool] has registered a function under a name, a [tools/call]
    of that name evaluates that function on the arguments of the request,
    whatever the registry held before, and the answer is read off what that
    call comes to: the text of the returned value when [json.dumps] writes
    it, else the error -32603 with the message of what was raised. *)
Theorem registered_tool_is_called (n desc : string) (ps : dict pyval)
    (f : handler_fn) (kvs pkvs : dict pyval) (w : runtime) :
  method_of kvs = PStr "tools/call" ->
  params_of kvs = PDict pkvs ->
  name_of pkvs = PStr n ->
  _handle_mcp_request (PDict kvs) (snd (tool n desc ps f w)) =
  (Val (jsonify (call_answer (id_of kvs) (f (arguments_of pkvs)))),
   {| self := self (snd (tool n desc ps f w));
      calls := calls w ++ match f (arguments_of pkvs) with
                          | Rejects _ => []
                          | _ => [(n, arguments_of pkvs)]
                          end |}).
Proof.
  intros Hm Hp Hn.
  rewrite (tools_call_registered kvs pkvs n
             (entry_of {| decl_name := n; decl_description := desc;
                          decl_parameters := ps; decl_func := f |})); auto.
  rewrite tool_run. simpl. apply dict_get_set_same.
Qed.

(** X10. The four routes agree on the registry: [GET /tools] shows the name
    and description of each entry [tools/list] shows, in the same order, and
    its count, the [tools_count] of [GET /health] and that of [GET /] are the
    number of those entries.  None of the routes changes the runtime. *)
Theorem routes_agree (kvs : dict pyval) (w : runtime) :
  method_of kvs = PStr "tools/list" ->
  exists listed : list pyval,
    mcp_endpoint (PDict kvs) w =
    (Val (jsonify (result_envelope (id_of kvs)
                     (PDict [("tools", PList listed)]))), w) /\
    list_tools w =
    (Val (jsonify
            (PDict [("tools", PList (map brief listed));
                    ("count", PInt (Z.of_nat (length listed)))])), w) /\
    health w =
    (Val (jsonify
            (PDict [("status", PStr "ok");
                    ("server", PStr (name (self w)));
                    ("version", PStr (version (self w)));
                    ("tools_count", PInt (Z.of_nat (length listed)))])), w) /\
    index w =
    (Val (jsonify
            (PDict [("name", PStr (name (self w)));
                    ("description", PStr (description (self w)));
                    ("version", PStr (version (self w)));
                    ("endpoints",
                     PDict [("mcp", PStr "/mcp (POST)");
                            ("health", PStr "/health");
                            ("tools", PStr "/tools")]);
                    ("tools_count", PInt (Z.of_nat (length listed)))])), w).
Proof.
  intros Hm. exists (map listing (dict_values (tools (self w)))).
  unfold mcp_endpoint, list_tools, health, index, bind, get_self, ret.
  rewrite handle_object
    by (apply (request_nonempty kvs "tools/list"); [assumption | discriminate]).
  rewrite Hm. simpl.
  unfold dict_values. rewrite !map_map, !length_map. simpl.
  repeat split.
Qed.

End RoundTrip.

(** X11. After start-up [GET /health] reports the name and version the
    server was created with and, as [tools_count], the number of different
    names the script declared. *)
Theorem health_counts_declared_names (nm desc ver : string)
    (ds : list declaration) :
  health (boot nm desc ver ds) =
  (Val (jsonify
          (PDict [("status", PStr "ok");
                  ("server", PStr nm);
                  ("version", PStr ver);
                  ("tools_count",
                   PInt (Z.of_nat
                           (length (first_occurrences (map decl_name ds)))))])),
   boot nm desc ver ds).
Proof.
  unfold health, bind, get_self, ret.
  destruct (boot_self nm desc ver ds) as [Hn [_ [Hv _]]].
  rewrite Hn, Hv. rewrite <- (boot_keys nm desc ver ds).
  unfold dict_keys. now rewrite length_map.
Qed.

(** ** Members a request leaves out *)

Section MissingMembers.

Context {RT : PyRuntime}.

(** X12. A [tools/call] without a name (no [params] at all, or [params]
    without [name]) is answered, whatever the registry holds, by the error
    -32601 "Tool not found: None"; no handler is called. *)
Theorem missing_name_not_found (kvs pkvs : dict pyval) (w : runtime) :
  method_of kvs = PStr "tools/call" ->
  params_of kvs = PDict pkvs ->
  dict_get pkvs "name" = None ->
  _handle_mcp_request (PDict kvs) w =
  (Val {| json := error_envelope (id_of kvs) (-32601) "Tool not found: None";
          status := 200 |},
   w).
Proof.
  intros Hm Hp Hn. rewrite (handle_tools_call kvs pkvs); auto.
  unfold name_of, get_default. rewrite Hn. reflexivity.
Qed.

(** X13. A [tools/call] of a registered tool that carries no [arguments]
    calls the handler with the empty mapping: the call recorded and the
    answer are those of [handler( **{} )]. *)
Theorem missing_arguments_empty_mapping (kvs pkvs : dict pyval) (n : string)
    (entry : Tool.t) (w : runtime) :
  method_of kvs = PStr "tools/call" ->
  params_of kvs = PDict pkvs ->
  name_of pkvs = PStr n ->
  dict_get (tools (self w)) n = Some entry ->
  dict_get pkvs "arguments" = None ->
  _handle_mcp_request (PDict kvs) w =
  (Val (jsonify (call_answer (id_of kvs) (Tool.handler entry (PDict [])))),
   {| self := self w; calls := calls w ++ call_record entry (PDict []) |}).
Proof.
  intros Hm Hp Hn Hget Harg.
  rewrite (tools_call_registered kvs pkvs n entry); auto.
  unfold arguments_of, get_default. rewrite Harg. reflexivity.
Qed.

End MissingMembers.

(** ** The catalogue of the module *)

Section Catalogue.

Context {H : Handlers}.

(** X14. The module declares six tools under six different names, so every
    declaration is in the registry of [server], in the order of the module
    and none replaced; each tool lists as required only parameters it
    declares among its properties. *)
Theorem server_catalogue :
  map decl_name declarations =
  ["get_weather_forecast"; "get_news"; "search_web"; "convert_currency";
   "calculate"; "get_prayer_times"] /\
  NoDup (map decl_name declarations) /\
  tools (self server) = map (fun d => (decl_name d, entry_of d)) declarations /\
  forallb required_declared declarations = true /\
  name (self server) = "info-agent" /\
  version (self server) = "2.0.0".
Proof.
  assert (Hnd : NoDup (map decl_name declarations)).
  { simpl. repeat constructor; simpl; intuition discriminate. }
  split; [reflexivity|]. split; [exact Hnd|].
  split; [now apply distinct_names_all_registered|].
  repeat split.
Qed.

End Catalogue.

(** ** The text of a serialized string *)

Lemma unescape_escape_char (c : ascii) (rest : string) :
  unescape (escape_char c ++ rest) = String c (unescape rest).
Proof.
  destruct c as [b0 b1 b2 b3 b4 b5 b6 b7].
  destruct b0, b1, b2, b3, b4, b5, b6, b7; reflexivity.
Qed.

Lemma unescape_escape (s : string) : unescape (escape s) = s.
Proof.
  induction s as [|c rest IH]; simpl; auto.
  now rewrite unescape_escape_char, IH.
Qed.

Lemma escape_char_printable (c : ascii) :
  Forall (fun x => (32 <= N_of_ascii x)%N)
         (list_ascii_of_string (escape_char c)).
Proof.
  destruct c as [b0 b1 b2 b3 b4 b5 b6 b7].
  destruct b0, b1, b2, b3, b4, b5, b6, b7;
    vm_compute; repeat constructor; discriminate.
Qed.

Lemma list_ascii_app (s t : string) :
  list_ascii_of_string (s ++ t) =
  (list_ascii_of_string s ++ list_ascii_of_string t)%list.
Proof. induction s as [|c s IH]; simpl; auto. now rewrite IH. Qed.

Lemma append_char_inj (a b : string) (c : ascii) :
  a ++ String c "" = b ++ String c "" -> a = b.
Proof.
  revert b. induction a as [|x a IH]; intros [|y b]; simpl; intros E;
    try reflexivity.
  - inversion E. destruct b; discriminate.
  - inversion E. destruct a; discriminate.
  - inversion E. f_equal. now apply IH.
Qed.

Section SerializedStrings.

Context {RT : PyRuntime}.

(** X15. Different strings are serialized to different texts. *)
Theorem dumps_str_injective (s t : string) :
  dumps (PStr s) = dumps (PStr t) -> s = t.
Proof.
  simpl. unfold encode_str. intros Heq. inversion Heq as [Hbody].
  apply append_char_inj in Hbody.
  rewrite <- (unescape_escape s), <- (unescape_escape t).
  now rewrite Hbody.
Qed.

(** X16. The text of a serialized string holds no control character: every
    character of it has code 32 or more. *)
Theorem dumps_str_no_control (s : string) :
  Forall (fun x => (32 <= N_of_ascii x)%N)
         (list_ascii_of_string (dumps (PStr s))).
Proof.
  simpl. unfold encode_str. simpl. constructor; [discriminate|].
  rewrite list_ascii_app. apply Forall_app. split.
  - induction s as [|c rest IH]; simpl; [constructor|].
    rewrite list_ascii_app. apply Forall_app. split; auto.
    apply escape_char_printable.
  - repeat constructor. discriminate.
Qed.

End SerializedStrings.

(** ** The further properties at concrete requests *)

Lemma response_is_envelope_witness :
  exists member : string * pyval,
    error_envelope (PInt 4) (-32601) "Method not found: frobnicate" =
    PDict [("jsonrpc", PStr "2.0"); ("id", PInt 4); member] /\
    ((exists v, member = ("result", v)) \/
     (exists code message,
         member = ("error", PDict [("code", PInt code);
                                   ("message", PStr message)]) /\
         (code = -32700 \/ code = -32601 \/ code = -32603))).
Proof.
  exact (response_is_envelope (RT := plain_runtime)
           (PDict (request 4 "frobnicate")) sample sample
           {| json := error_envelope (PInt 4) (-32601)
                        "Method not found: frobnicate";
              status := 200 |}
           eq_refl).
Defined.

(** The same [initialize], once as a client should send it and once with
    another version, the members in another order and one more member. *)
Lemma only_id_method_params_read_witness :
  _handle_mcp_request (RT := plain_runtime)
    (PDict (request 1 "initialize")) sample =
  _handle_mcp_request (RT := plain_runtime)
    (PDict [("note", PBool true); ("method", PStr "initialize");
            ("jsonrpc", PStr "1.0"); ("id", PInt 1)]) sample.
Proof.
  apply (only_id_method_params_read (RT := plain_runtime));
    try discriminate; reflexivity.
Defined.

Lemma tool_appends_new_name_witness :
  exists w' : runtime,
    tool "pong" "Another" [] ping sample = (Val tt, w') /\
    dict_keys (tools (self w')) = ["ping"; "fail"; "pong"].
Proof.
  destruct (tool_appends_new_name "pong" "Another" [] ping sample eq_refl)
    as [w' [Hrun [Htools _]]].
  exists w'. split; [exact Hrun|]. rewrite Htools. reflexivity.
Defined.

Lemma distinct_names_all_registered_witness :
  tools (self sample) =
  [("ping", entry_of ping_decl); ("fail", entry_of fail_decl)].
Proof.
  apply (distinct_names_all_registered "sample" "two tools" "2.0.0"
           [ping_decl; fail_decl]).
  repeat constructor; simpl; intuition discriminate.
Defined.

(** [fail] is declared with no parameters at all. *)
Lemma registered_schema_shape_witness :
  exists d : declaration,
    In d [ping_decl; fail_decl] /\
    "fail" = decl_name d /\
    Tool.inputSchema (entry_of fail_decl) =
    PDict [("type", PStr "object");
           ("properties",
            match dict_get (decl_parameters d) "properties" with
            | Some p => p
            | None => PDict []
            end);
           ("required",
            match dict_get (decl_parameters d) "required" with
            | Some r => r
            | None => PList []
            end)].
Proof.
  apply (registered_schema_shape "sample" "two tools" "2.0.0"
           [ping_decl; fail_decl] (entry_of fail_decl)).
  simpl. right. left. reflexivity.
Defined.

Lemma registered_tool_is_called_witness :
  _handle_mcp_request (RT := plain_runtime)
    (PDict (call_request 8 "late" (PDict [("host", PStr "h")])))
    (snd (tool "late" "Registered last" [] ping sample)) =
  (Val (jsonify
          (result_envelope (PInt 8)
             (text_content
                (dumps (RT := plain_runtime) (PDict [("host", PStr "h")]))))),
   {| self := self (snd (tool "late" "Registered last" [] ping sample));
      calls := [("late", PDict [("host", PStr "h")])] |}).
Proof.
  exact (registered_tool_is_called (RT := plain_runtime)
           "late" "Registered last" [] ping
           (call_request 8 "late" (PDict [("host", PStr "h")]))
           (call_params "late" (PDict [("host", PStr "h")]))
           sample eq_refl eq_refl eq_refl).
Defined.

Lemma routes_agree_witness :
  exists listed : list pyval,
    mcp_endpoint (RT := plain_runtime) (PDict (request 1 "tools/list")) sample =
    (Val (jsonify (result_envelope (PInt 1)
                     (PDict [("tools", PList listed)]))), sample) /\
    list_tools sample =
    (Val (jsonify
            (PDict [("tools", PList (map brief listed));
                    ("count", PInt (Z.of_nat (length listed)))])), sample) /\
    length listed = 2%nat.
Proof.
  destruct (routes_agree (RT := plain_runtime)
              (request 1 "tools/list") sample eq_refl)
    as [listed [Hmcp [Htools _]]].
  exists listed. split; [exact Hmcp|]. split; [exact Htools|].
  unfold mcp_endpoint in Hmcp. vm_compute in Hmcp.
  inversion Hmcp. reflexivity.
Defined.

(** A [tools/call] with no [params]. *)
Lemma missing_name_not_found_witness :
  _handle_mcp_request (RT := plain_runtime)
    (PDict (request 7 "tools/call")) sample =
  (Val {| json := error_envelope (PInt 7) (-32601) "Tool not found: None";
          status := 200 |},
   sample).
Proof.
  exact (missing_name_not_found (RT := plain_runtime)
           (request 7 "tools/call") [] sample eq_refl eq_refl eq_refl).
Defined.

(** [ping] called with a name only. *)
Lemma missing_arguments_empty_mapping_witness :
  _handle_mcp_request (RT := plain_runtime)
    (PDict (request 9 "tools/call" ++
            [("params", PDict [("name", PStr "ping")])])%list) sample =
  (Val (jsonify
          (result_envelope (PInt 9)
             (text_content
                (dumps (RT := plain_runtime)
                   (PDict [("host", PStr "localhost")]))))),
   {| self := self sample; calls := [("ping", PDict [])] |}).
Proof.
  exact (missing_arguments_empty_mapping (RT := plain_runtime)
           (request 9 "tools/call" ++
            [("params", PDict [("name", PStr "ping")])])%list
           [("name", PStr "ping")] "ping" (entry_of ping_decl) sample
           eq_refl eq_refl eq_refl eq_refl eq_refl).
Defined.

Lemma dumps_str_injective_witness : "météo" = "météo".
Proof.
  exact (dumps_str_injective (RT := plain_runtime) "météo" "météo" eq_refl).
Defined.
